(** * Climbing-conditions dashboard: a shallow embedding of [app.py]

    The development follows the pipeline of the program:
    [parse_forecast] -> [c_to_f_list] -> [daily_metrics_and_alpha_with_rain]
    -> [plot_location_forecast] -> [generate_dashboard_plot] -> [index].

    Numbers.  Python's numeric values (ints and floats of the forecast) are
    embedded as exact rationals [Q]; statements about them use the setoid
    equality [==] and the order of [Q].  Rounding of binary floating point is
    not part of the model; module [Binary64] repeats the conversion and the
    two curves on IEEE doubles, to evaluate them at the listed points.

    Dates and times.  A [datetime] is a calendar date, kept as its proleptic
    Gregorian ordinal (Python's [date.toordinal()], an order isomorphism), and
    a time of day with the four fields of [datetime.time].

    Dictionaries are [gmap]s keyed by the date ordinal, Python sets are
    [gset]s, exceptions are [None] in [option]. *)

From Stdlib Require Import QArith Qabs Qround Lqa DecimalString PrimFloat.
From stdpp Require Import gmap list sorting strings.

Local Open Scope Q_scope.

(** ** Numbers *)

Definition Qlt_bool (x y : Q) : bool := negb (Qle_bool y x).

Declare Scope pyq_scope.
Delimit Scope pyq_scope with pyq.
Notation "x <=? y" := (Qle_bool x y) (at level 70, no associativity) : pyq_scope.
Notation "x <? y" := (Qlt_bool x y) (at level 70, no associativity) : pyq_scope.

(** ** Dates and times *)

Record time := Time {
  hour : nat;
  minute : nat;
  second : nat;
  microsecond : nat
}.

Record datetime := DateTime {
  dt_date : Z;
  dt_time : time
}.

(** [a >= b] on [datetime.time]: the lexicographic order of the fields. *)
Definition time_geb (a b : time) : bool :=
  if (hour b <? hour a)%nat then true
  else if negb (hour a =? hour b)%nat then false
  else if (minute b <? minute a)%nat then true
  else if negb (minute a =? minute b)%nat then false
  else if (second b <? second a)%nat then true
  else if negb (second a =? second b)%nat then false
  else (microsecond b <=? microsecond a)%nat.

Definition noon : time := Time 12 0 0 0.

(** [9 <= t.hour < 16] *)
Definition in_window (t : datetime) : bool :=
  (9 <=? hour (dt_time t))%nat && (hour (dt_time t) <? 16)%nat.

Definition on_day (day : Z) (t : datetime) : bool := (dt_date t =? day)%Z.

(** ** Unit conversion: [c_to_f_list] *)

Definition c_to_f_list (temps_c : list Q) : list Q :=
  List.map (fun tc => tc * 9 / 5 + 32) temps_c.

(** ** The scoring curves (the body of the day loop, lines 89-111) *)

Inductive temp_branch :=
| BrExtreme      (* if max_temp >= 80 or max_temp <= 32 *)
| BrIdeal        (* elif 60 <= max_temp <= 69 *)
| BrRampUp       (* elif 40 < max_temp < 60 *)
| BrRampDown     (* elif 69 < max_temp < 80 *)
| BrElse.        (* else *)

(** The temperature conditional, returning the branch taken with the score. *)
Definition temp_score_traced (max_temp : Q) : temp_branch * Q :=
  if ((80 <=? max_temp) || (max_temp <=? 32))%pyq then (BrExtreme, 0)
  else if ((60 <=? max_temp) && (max_temp <=? 69))%pyq then (BrIdeal, 1)
  else if ((40 <? max_temp) && (max_temp <? 60))%pyq
       then (BrRampUp, (max_temp - 40) / (60 - 40))
  else if ((69 <? max_temp) && (max_temp <? 80))%pyq
       then (BrRampDown, (80 - max_temp) / (80 - 69))
  else (BrElse, 0).

Definition temp_score (max_temp : Q) : Q := snd (temp_score_traced max_temp).
Definition temp_score_branch (max_temp : Q) : temp_branch :=
  fst (temp_score_traced max_temp).

Definition hum_score (max_hum : Q) : Q :=
  if (max_hum <=? 50)%pyq then 1
  else if (80 <=? max_hum)%pyq then 0
  else (80 - max_hum) / (80 - 50).

Definition min_alpha : Q := 0.0.
Definition max_alpha : Q := 0.8.

(** Lines 89-111: the favorability of one day from its three statistics. *)
Definition alpha_of (max_temp max_hum rain_amt : Q) : Q :=
  if (0 <? rain_amt)%pyq then 0
  else
    let combined_score := temp_score max_temp * hum_score max_hum in
    min_alpha + (max_alpha - min_alpha) * combined_score.

(** ** Daily aggregation: [daily_metrics_and_alpha_with_rain] *)

(** [zip(times, temps_f, hums, rain_mm)]: stops at the shortest list. *)
Fixpoint zip4 (times : list datetime) (temps_f hums rain_mm : list Q)
  : list (datetime * Q * Q * Q) :=
  match times, temps_f, hums, rain_mm with
  | t :: ts, tf :: tfs, h :: hs, r :: rs => (t, tf, h, r) :: zip4 ts tfs hs rs
  | _, _, _, _ => []
  end.

(** The three [defaultdict]s filled by the first loop. *)
Record buckets := Buckets {
  daily_temps : gmap Z (list Q);
  daily_humidity : gmap Z (list Q);
  daily_rain : gmap Z Q
}.

Definition no_buckets : buckets := Buckets ∅ ∅ ∅.

(** One iteration of the first loop (lines 61-67).  Reading
    [daily_rain[day]] on a [defaultdict(float)] creates the entry [0.0]. *)
Definition bucket_step (b : buckets) (s : datetime * Q * Q * Q) : buckets :=
  let '(t, tf, h, rain) := s in
  if in_window t then
    let day := dt_date t in
    let cur := default 0.0 (daily_rain b !! day) in
    let rain0 := <[day := cur]> (daily_rain b) in
    {| daily_temps :=
         <[day := default [] (daily_temps b !! day) ++ [tf]]> (daily_temps b);
       daily_humidity :=
         <[day := default [] (daily_humidity b !! day) ++ [h]]> (daily_humidity b);
       daily_rain := if (cur <? rain)%pyq then <[day := rain]> rain0 else rain0 |}
  else b.

Definition fill_buckets (times : list datetime) (temps_f hums rain_mm : list Q)
  : buckets :=
  fold_left bucket_step (zip4 times temps_f hums rain_mm) no_buckets.

(** [sorted({t.date() for t in times})] *)
Definition day_set (times : list datetime) : gset Z :=
  list_to_set (List.map dt_date times).

Definition sorted_days (times : list datetime) : list Z :=
  merge_sort Z.le (elements (day_set times)).

(** Python's [max] keeps the first of the largest items. *)
Definition py_max (x : Q) (xs : list Q) : Q :=
  fold_left (fun m y => if (m <? y)%pyq then y else m) xs x.

(** [max(l)]; [None] is the [ValueError] on an empty argument. *)
Definition max_of (l : list Q) : option Q :=
  match l with
  | [] => None
  | x :: xs => Some (py_max x xs)
  end.

Fixpoint enumerate_from {A} (i : nat) (l : list A) : list (nat * A) :=
  match l with
  | [] => []
  | x :: l' => (i, x) :: enumerate_from (S i) l'
  end.

(** [[i for i, t in enumerate(times) if t.date() == day]] *)
Definition day_indices (times : list datetime) (day : Z) : list nat :=
  List.map fst (List.filter (fun it => on_day day (snd it)) (enumerate_from 0 times)).

(** [max(vals[i] for i in idxs) if idxs else 0]; [None] is an [IndexError]. *)
Definition max_at (vals : list Q) (idxs : list nat) : option Q :=
  match idxs with
  | [] => Some 0
  | _ => picked ← mapM (fun i : nat => vals !! i) idxs; max_of picked
  end.

(** Lines 76-87: the pair [(max_temp, max_hum)] of one day. *)
Definition day_stats (times : list datetime) (temps_f hums : list Q)
    (b : buckets) (day : Z) : option (Q * Q) :=
  let temps_day := default [] (daily_temps b !! day) in
  let hum_day := default [] (daily_humidity b !! day) in
  match temps_day, hum_day with
  | x :: xs, y :: ys => Some (py_max x xs, py_max y ys)
  | _, _ =>
      let idxs := day_indices times day in
      max_temp ← max_at temps_f idxs;
      max_hum ← max_at hums idxs;
      Some (max_temp, max_hum)
  end.

(** What the function returns: the three dictionaries and the day list. *)
Record metrics := Metrics {
  alpha_map : gmap Z Q;
  day_metrics : gmap Z (Q * Q);
  rain_map : gmap Z Q;
  all_days : list Z
}.

(** The second loop (lines 75-113) over the remaining days. *)
Fixpoint day_loop (times : list datetime) (temps_f hums : list Q) (b : buckets)
    (days : list Z) (am : gmap Z Q) (dm : gmap Z (Q * Q)) (rm : gmap Z Q)
  : option (gmap Z Q * gmap Z (Q * Q) * gmap Z Q) :=
  match days with
  | [] => Some (am, dm, rm)
  | day :: rest =>
      let rain_amt := default 0.0 (daily_rain b !! day) in
      st ← day_stats times temps_f hums b day;
      let alpha := alpha_of (fst st) (snd st) rain_amt in
      day_loop times temps_f hums b rest
        (<[day := alpha]> am) (<[day := st]> dm) (<[day := rain_amt]> rm)
  end.

Definition daily_metrics_and_alpha_with_rain
    (times : list datetime) (temps_f hums rain_mm : list Q) : option metrics :=
  let b := fill_buckets times temps_f hums rain_mm in
  let days := sorted_days times in
  r ← day_loop times temps_f hums b days ∅ ∅ ∅;
  Some {| alpha_map := r.1.1; day_metrics := r.1.2; rain_map := r.2;
          all_days := days |}.

(** ** The raw forecast and [parse_forecast] *)

(** The value under the key ["rain"] of an entry, when the key is there. *)
Inductive rain_field :=
| RainDict (three_h one_h : option Q)   (* a dict, with optional "3h" and "1h" *)
| RainOther.                            (* anything that is not a dict *)

Record main_block := MainBlock {
  mb_temp : option Q;          (* entry["main"]["temp"] *)
  mb_humidity : option Q       (* entry["main"]["humidity"] *)
}.

(** One element of [data["list"]]; [None] is a missing key. *)
Record entry := Entry {
  e_dt : option Z;
  e_main : option main_block;
  e_rain : option rain_field
}.

Record response := Response { r_list : option (list entry) }.

Definition series : Type := list datetime * list Q * list Q * list Q.

(** Lines 46-48. *)
Definition rain_volume (e : entry) : Q :=
  match e_rain e with
  | Some (RainDict three_h one_h) => default (default 0 one_h) three_h
  | _ => 0
  end.

(** The loop of [parse_forecast]; a missing key ([KeyError]) or a timestamp
    that [datetime.fromtimestamp] refuses ends it with [None]. *)
Fixpoint parse_entries (fromtimestamp : Z -> option datetime)
    (entries : list entry) (acc : series) : option series :=
  match entries with
  | [] => Some acc
  | e :: rest =>
      let '(times, temps_c, hums, rain_mm) := acc in
      ts ← e_dt e;
      dt ← fromtimestamp ts;
      main ← e_main e;
      temp ← mb_temp main;
      main' ← e_main e;
      hum ← mb_humidity main';
      parse_entries fromtimestamp rest
        (times ++ [dt], temps_c ++ [temp], hums ++ [hum],
         rain_mm ++ [rain_volume e])
  end.

Definition parse_forecast (fromtimestamp : Z -> option datetime)
    (data : response) : option series :=
  entries ← r_list data;
  parse_entries fromtimestamp entries ([], [], [], []).

(** ** The drawing surface *)

(** The calls made on an axes object, in the order they are made; calls that
    only style ticks and labels are left out. *)
Inductive draw :=
| plot (xs : list datetime) (ys : list Q) (color : string)
| set_ylim (lo hi : Q)
| set_ylabel (s : string)
| set_xlim (lo hi : Q)
| xtick_labels (shown : bool)
| axvline (x : Q)
| axvspan (x0 x1 alpha : Q)
| text (x y : Q) (s ha color : string) (fontsize : nat)
| set_title (s : string)
| twin_plot (xs : list datetime) (ys : list Q) (color : string)
| twin_set_ylim (lo hi : Q)
| twin_set_ylabel (s : string).

(** [mdates.date2num] of midnight of a day: days since 1970-01-01. *)
Definition date2num (day : Z) : Q := inject_Z (day - 719163).

(** [mdates.date2num] of a datetime. *)
Definition datetime2num (t : datetime) : Q :=
  date2num (dt_date t)
  + inject_Z (Z.of_nat (hour (dt_time t) * 3600 + minute (dt_time t) * 60
                        + second (dt_time t))) / 86400
  + inject_Z (Z.of_nat (microsecond (dt_time t))) / 86400000000.

(** [day.strftime("%a")] *)
Definition strftime_a (day : Z) : string :=
  match ((day + 6) mod 7)%Z with
  | 0%Z => "Mon" | 1%Z => "Tue" | 2%Z => "Wed" | 3%Z => "Thu"
  | 4%Z => "Fri" | 5%Z => "Sat" | _ => "Sun"
  end.

Definition round_half_even (q : Q) : Z :=
  let f := Qfloor q in
  let r := q - inject_Z f in
  if (r <? 1 # 2)%pyq then f
  else if ((1 # 2) <? r)%pyq then (f + 1)%Z
  else if Z.even f then f else (f + 1)%Z.

Definition digits_of (n : Z) : string :=
  NilZero.string_of_uint (N.to_uint (Z.to_N n)).

Fixpoint pad_left (fuel width : nat) (s : string) : string :=
  match fuel with
  | O => s
  | S fuel' =>
      if (String.length s <? width)%nat then pad_left fuel' width ("0" +:+ s)
      else s
  end.

(** [f"{q:.<prec>f}"]: fixed-point notation, rounding half to even. *)
Definition format_f (prec : nat) (q : Q) : string :=
  let unit := (10 ^ Z.of_nat prec)%Z in
  let n := round_half_even (Qabs q * inject_Z unit) in
  let sign := if (q <? 0)%pyq then "-" else "" in
  let whole := digits_of (n / unit) in
  match prec with
  | O => sign +:+ whole
  | _ => sign +:+ whole +:+ "." +:+ pad_left prec prec (digits_of (n mod unit))
  end.

Definition green_label : string := "#000000".
Definition grey_label : string := "#000000".
Definition umbrella_icon : string := "☔".
Definition tbd_label : string := "T: TBD, H: TBD".

(** [min(all_days) if all_days else None] *)
Definition first_day_of (all_days : list Z) : option Z :=
  match all_days with
  | [] => None
  | d :: ds => Some (fold_left (fun m x => if (x <? m)%Z then x else m) ds d)
  end.

(** [any(t.date() == day and t.time() >= time(12, 0) for t in times)] *)
Definition has_post_noon_data (times : list datetime) (day : Z) : bool :=
  existsb (fun t => on_day day t && time_geb (dt_time t) noon) times.

(** Line 153. *)
Definition shown_alpha (times : list datetime) (alpha_map : gmap Z Q) (day : Z) : Q :=
  if negb (has_post_noon_data times day) then 0 else default 0 (alpha_map !! day).

(** Line 173. *)
Definition label_text (times : list datetime) (day_metrics : gmap Z (Q * Q))
    (day : Z) : string :=
  if negb (has_post_noon_data times day) then tbd_label
  else
    let '(max_temp, max_hum) := default (0, 0) (day_metrics !! day) in
    "T: " +:+ format_f 0 max_temp +:+ "°F, H: " +:+ format_f 0 max_hum +:+ "%".

(** Lines 147-185: what one iteration of the day loop draws. *)
Definition plot_day (times : list datetime) (alpha_map : gmap Z Q)
    (day_metrics : gmap Z (Q * Q)) (rain_map : gmap Z Q)
    (ymin ymax : Q) (day : Z) : list draw :=
  let start_num := date2num day in
  let alpha := shown_alpha times alpha_map day in
  let rain_mm := default 0.0 (rain_map !! day) in
  let rain_in := rain_mm / 25.4 in
  let y_pos := ymin + 0.15 * (ymax - ymin) in
  let txt_y_pos := y_pos - 0.08 * (ymax - ymin) in
  let text_color := if (0 <? alpha)%pyq then green_label else grey_label in
  [axvline start_num]
  ++ (if (0 <? alpha)%pyq then [axvspan start_num (start_num + 1) alpha] else [])
  ++ [text (start_num + 0.5) y_pos (strftime_a day) "center" text_color 10;
      text (start_num + 0.5) txt_y_pos (label_text times day_metrics day)
        "center" text_color 8]
  ++ (if (0 <? rain_in)%pyq then
        let umbrella_x := start_num + 0.48 in
        let rain_x := start_num + 0.52 in
        let umbrella_y := y_pos + 0.13 * (ymax - ymin) in
        [text umbrella_x umbrella_y umbrella_icon "right" "navy" 20;
         text rain_x umbrella_y (format_f 2 rain_in +:+ " in") "left" "navy" 10]
      else []).

(** The day loop with its [continue] on the first day (lines 143-145). *)
Definition plot_days (times : list datetime) (alpha_map : gmap Z Q)
    (day_metrics : gmap Z (Q * Q)) (rain_map : gmap Z Q)
    (all_days : list Z) (ymin ymax : Q) : list draw :=
  let first_day := first_day_of all_days in
  flat_map (fun day =>
              if decide (Some day = first_day) then []
              else plot_day times alpha_map day_metrics rain_map ymin ymax day)
           all_days.

(** [max(all_days)] for a non-empty list. *)
Definition last_day_of (d : Z) (ds : list Z) : Z :=
  fold_left (fun m x => if (m <? x)%Z then x else m) ds d.

Definition plot_location_forecast (times : list datetime) (temps_f hums : list Q)
    (alpha_map : gmap Z Q) (day_metrics : gmap Z (Q * Q)) (rain_map : gmap Z Q)
    (all_days : list Z) (loc_name : string) (temp_ylim_max x_min x_max : Q)
    (show_xaxis : bool) : list draw :=
  let buf := temp_ylim_max * 0.05 in
  let ylim_top := temp_ylim_max + buf in
  [plot times temps_f "#8B0000"; set_ylim 0 ylim_top; set_ylabel "Temp (°F)";
   set_xlim x_min x_max; xtick_labels show_xaxis]
  ++ plot_days times alpha_map day_metrics rain_map all_days 0 ylim_top
  ++ match all_days with
     | [] => []
     | d :: ds => [axvline (date2num (last_day_of d ds) + 1)]
     end
  ++ [twin_plot times hums "blue"; twin_set_ylim 0 105;
      twin_set_ylabel "Humidity (%)"; set_title loc_name].

(** ** The dashboard: [generate_dashboard_plot] and [index] *)

Definition LOCATIONS : list (string * (Q * Q)) :=
  [("Farley", (42.5949, -72.3678));
   ("Rumney", (43.9426, -71.8224));
   ("Merriam Woods", (43.9948, -71.6828));
   ("The Gunks", (41.7459, -74.0890));
   ("Hanging Mountain", (42.0618, -73.1150))].

(** Lines 212-218: fetch, parse and convert one location; any exception
    leaves the four empty lists.  [fetch lat lon] is the provider's answer,
    [None] when the request or its decoding raises. *)
Definition load_location (fetch : Q -> Q -> option response)
    (fromtimestamp : Z -> option datetime) (coords : Q * Q) : series :=
  let attempt :=
    data ← fetch coords.1 coords.2;
    parsed ← parse_forecast fromtimestamp data;
    let '(times, temps_c, hums, rain_mm) := parsed in
    Some (times, c_to_f_list temps_c, hums, rain_mm) in
  match attempt with
  | Some s => s
  | None => ([], [], [], [])
  end.

Record gathered := Gathered {
  all_data : list (string * series);
  max_temp_global : Q;
  all_times : list datetime
}.

(** One iteration of the first loop of [generate_dashboard_plot]. *)
Definition gather_step (fetch : Q -> Q -> option response)
    (fromtimestamp : Z -> option datetime)
    (g : gathered) (loc : string * (Q * Q)) : gathered :=
  let s := load_location fetch fromtimestamp loc.2 in
  let '(times, temps_f, hums, rain_mm) := s in
  {| all_data := all_data g ++ [(loc.1, s)];
     max_temp_global :=
       match temps_f with
       | [] => max_temp_global g
       | x :: xs =>
           let mx := py_max x xs in
           if (max_temp_global g <? mx)%pyq then mx else max_temp_global g
       end;
     all_times := all_times g ++ times |}.

Definition datetime_ltb (a b : datetime) : bool :=
  (dt_date a <? dt_date b)%Z
  || ((dt_date a =? dt_date b)%Z && negb (time_geb (dt_time a) (dt_time b))).

Definition min_datetime (t : datetime) (ts : list datetime) : datetime :=
  fold_left (fun m x => if datetime_ltb x m then x else m) ts t.

Definition max_datetime (t : datetime) (ts : list datetime) : datetime :=
  fold_left (fun m x => if datetime_ltb m x then x else m) ts t.

(** The second loop (lines 232-239); [None] when an exception escapes. *)
Fixpoint draw_bands (n_axes i : nat) (data : list (string * series))
    (temp_ylim_max x_min x_max : Q) : option (list (list draw)) :=
  match data with
  | [] => Some []
  | (loc_name, (times, temps_f, hums, rain_mm)) :: rest =>
      band ← match times with
             | [] => Some [set_title loc_name]
             | _ =>
                 m ← daily_metrics_and_alpha_with_rain times temps_f hums rain_mm;
                 Some (plot_location_forecast times temps_f hums
                         (alpha_map m) (day_metrics m) (rain_map m) (all_days m)
                         loc_name temp_ylim_max x_min x_max
                         (i =? n_axes - 1)%nat)
             end;
      bands ← draw_bands n_axes (S i) rest temp_ylim_max x_min x_max;
      Some (band :: bands)
  end.

(** What [generate_dashboard_plot] returns: [None] or the figure. *)
Inductive dashboard :=
| NoFigure
| Figure (axes : list (list draw)).

Definition dashboard_for (locations : list (string * (Q * Q)))
    (fetch : Q -> Q -> option response)
    (fromtimestamp : Z -> option datetime) : option dashboard :=
  let g := fold_left (gather_step fetch fromtimestamp) locations
             (Gathered [] 0 []) in
  match all_times g with
  | [] => Some NoFigure
  | t :: ts =>
      let x_min := datetime2num (min_datetime t ts) - 6 / 24 in
      let x_max := datetime2num (max_datetime t ts) + 1 in
      axes ← draw_bands (length locations) 0 (all_data g)
               (max_temp_global g) x_min x_max;
      Some (Figure axes)
  end.

Definition generate_dashboard_plot := dashboard_for LOCATIONS.

(** The response of the endpoint: a literal body, or the template filled
    with the image of the figure. *)
Inductive page :=
| html (body : string)
| render_template (name : string) (plot : list (list draw)).

Definition missing_key_page : page :=
  html "<h1>Error: Please set your OPENWEATHER_API_KEY environment variable.</h1>".
Definition no_data_page : page := html "<h1>No data available to plot.</h1>".

(** [index]; [api_key] is [os.getenv("OPENWEATHER_API_KEY")]. *)
Definition index (api_key : option string) (fetch : Q -> Q -> option response)
    (fromtimestamp : Z -> option datetime) : option page :=
  match api_key with
  | None | Some EmptyString => Some missing_key_page
  | Some _ =>
      fig ← generate_dashboard_plot fetch fromtimestamp;
      match fig with
      | NoFigure => Some no_data_page
      | Figure axes => Some (render_template "index.html" axes)
      end
  end.

(** ** Sample data used by the examples below *)

Definition at_time (day : Z) (h m : nat) : datetime := DateTime day (Time h m 0 0).

(** A clock in UTC: the local time of a host whose zone has offset 0. *)
Definition utc_fromtimestamp (ts : Z) : option datetime :=
  let secs := (ts mod 86400)%Z in
  Some (DateTime (719163 + ts / 86400)
          (Time (Z.to_nat (secs / 3600)) (Z.to_nat (secs mod 3600 / 60))
             (Z.to_nat (secs mod 60)) 0)).

(** A provider that answers every request with the same two entries, the
    second without precipitation. *)
Definition two_entries : response :=
  Response (Some [Entry (Some 1714039200%Z) (Some (MainBlock (Some 20) (Some 45)))
                    (Some (RainDict (Some 1.5) None));
                  Entry (Some 1714050000%Z) (Some (MainBlock (Some 22) (Some 40)))
                    None]).

(** The same answer with the humidity of the second entry missing. *)
Definition broken_entries : response :=
  Response (Some [Entry (Some 1714039200%Z) (Some (MainBlock (Some 20) (Some 45)))
                    (Some (RainDict (Some 1.5) None));
                  Entry (Some 1714050000%Z) (Some (MainBlock (Some 22) None))
                    None]).

(** ** The same expressions in binary64

    Python evaluates the conversion and the curves on IEEE 754 doubles.  The
    three expressions are repeated here on primitive floats, to evaluate them
    at the points the specification lists. *)

Module Binary64.

Definition c_to_f (tc : float) : float := (tc * 9 / 5 + 32)%float.

Definition temp_score (max_temp : float) : float :=
  (if (80 <=? max_temp) || (max_temp <=? 32) then 0
   else if (60 <=? max_temp) && (max_temp <=? 69) then 1
   else if (40 <? max_temp) && (max_temp <? 60) then (max_temp - 40) / (60 - 40)
   else if (69 <? max_temp) && (max_temp <? 80) then (80 - max_temp) / (80 - 69)
   else 0)%float.

Definition hum_score (max_hum : float) : float :=
  (if max_hum <=? 50 then 1
   else if 80 <=? max_hum then 0
   else (80 - max_hum) / (80 - 50))%float.

End Binary64.

(** ** Reference curves, written from the specification's piecewise tables *)

(** The straight line through [(x0, y0)] and [(x1, y1)], evaluated at [x]. *)
Definition ramp (x0 y0 x1 y1 x : Q) : Q := y0 + (y1 - y0) * ((x - x0) / (x1 - x0)).

Definition temperatureScore_ref (t : Q) : Q :=
  if ((t <=? 32) || (80 <=? t))%pyq then 0
  else if ((60 <=? t) && (t <=? 69))%pyq then 1
  else if ((40 <? t) && (t <? 60))%pyq then ramp 40 0 60 1 t
  else if ((69 <? t) && (t <? 80))%pyq then ramp 69 1 80 0 t
  else 0.

Definition humidityScore_ref (h : Q) : Q :=
  if (h <=? 50)%pyq then 1
  else if (80 <=? h)%pyq then 0
  else ramp 50 1 80 0 h.

(** ** Vocabulary of the specification *)

(** Sample [i] of the sequence falls on [day]. *)
Definition day_sample (times : list datetime) (day : Z) (i : nat) : Prop :=
  exists t, times !! i = Some t /\ dt_date t = day.

(** Sample [i] falls on [day] with its time of day in [09:00, 16:00). *)
Definition window_sample (times : list datetime) (day : Z) (i : nat) : Prop :=
  exists t, times !! i = Some t /\ dt_date t = day
            /\ time_geb (dt_time t) (Time 9 0 0 0) = true
            /\ time_geb (dt_time t) (Time 16 0 0 0) = false.

(** [m] is the maximum of [vals] over the samples selected by [P]. *)
Definition max_over (P : nat -> Prop) (vals : list Q) (m : Q) : Prop :=
  (exists i, P i /\ vals !! i = Some m)
  /\ (forall i v, P i -> vals !! i = Some v -> v <= m).

(** The four lists describe the same samples. *)
Definition aligned (times : list datetime) (temps_f hums rain_mm : list Q) : Prop :=
  length temps_f = length times /\ length hums = length times
  /\ length rain_mm = length times.

(** The band shades [day]. *)
Definition shaded (out : list draw) (day : Z) : Prop :=
  exists x1 a, In (axvspan (date2num day) x1 a) out.

(** The band prints [s] as the stats line of [day]. *)
Definition shows_stats (out : list draw) (day : Z) (s : string) : Prop :=
  exists y c, In (text (date2num day + 0.5) y s "center" c 8) out.

(** The band prints the rain glyph and the amount [rain_in] for [day]. *)
Definition shows_rain (out : list draw) (day : Z) (rain_in : Q) : Prop :=
  (exists y, In (text (date2num day + 0.48) y umbrella_icon "right" "navy" 20) out)
  /\ (exists y, In (text (date2num day + 0.52) y (format_f 2 rain_in +:+ " in")
                      "left" "navy" 10) out).

(** An entry without one of the keys that [parse_forecast] indexes. *)
Definition lacks_required (e : entry) : Prop :=
  e_dt e = None \/ e_main e = None
  \/ exists main, e_main e = Some main
                  /\ (mb_temp main = None \/ mb_humidity main = None).

(** An entry [parse_forecast] can read. *)
Definition readable (fromtimestamp : Z -> option datetime) (e : entry) : Prop :=
  exists ts dt temp hum,
    e_dt e = Some ts /\ fromtimestamp ts = Some dt
    /\ e_main e = Some (MainBlock (Some temp) (Some hum)).

(** The samples that the first loop files under [day]. *)
Definition picks (day : Z) (s : datetime * Q * Q * Q) : bool :=
  in_window s.1.1.1 && on_day day s.1.1.1.

Definition temp_of (s : datetime * Q * Q * Q) : Q := s.1.1.2.
Definition hum_of (s : datetime * Q * Q * Q) : Q := s.1.2.
Definition rain_of (s : datetime * Q * Q * Q) : Q := s.2.

Definition times_of (s : series) : list datetime := s.1.1.1.

(** The series and the timestamps that a configured location ends up with. *)
Definition location_series (fetch : Q -> Q -> option response)
    (fromtimestamp : Z -> option datetime) (loc : string * (Q * Q)) : series :=
  load_location fetch fromtimestamp loc.2.

Definition location_times (fetch : Q -> Q -> option response)
    (fromtimestamp : Z -> option datetime) (loc : string * (Q * Q))
  : list datetime :=
  times_of (location_series fetch fromtimestamp loc).

(** The four lists of a series describe the same samples. *)
Definition series_aligned (s : series) : Prop :=
  aligned s.1.1.1 s.1.1.2 s.1.2 s.2.

(** ** The claims that the code does not satisfy as they are worded *)

(** The day's precipitation is the maximum over all of the day's samples,
    and a positive one forces favorability 0. *)
Definition rain_over_whole_day (times : list datetime)
    (temps_f hums rain_mm : list Q) (day : Z) : Prop :=
  exists m r,
    daily_metrics_and_alpha_with_rain times temps_f hums rain_mm = Some m
    /\ max_over (day_sample times day) rain_mm r
    /\ (exists r', rain_map m !! day = Some r' /\ r' == r)
    /\ (0 < r -> exists a, alpha_map m !! day = Some a /\ a == 0).

(** The final [else] of the temperature conditional is never taken. *)
Definition else_branch_unreachable (max_temp : Q) : Prop :=
  temp_score_branch max_temp <> BrElse.

(** A day without a sample at or after noon is drawn unshaded with the
    stats line "T: TBD, H: TBD". *)
Definition incomplete_day_shows_tbd (times : list datetime)
    (temps_f hums rain_mm : list Q) (loc_name : string)
    (temp_ylim_max x_min x_max : Q) (show_xaxis : bool) (day : Z) : Prop :=
  forall m,
    daily_metrics_and_alpha_with_rain times temps_f hums rain_mm = Some m ->
    let out := plot_location_forecast times temps_f hums (alpha_map m)
                 (day_metrics m) (rain_map m) (all_days m) loc_name
                 temp_ylim_max x_min x_max show_xaxis in
    In day (all_days m) -> has_post_noon_data times day = false ->
    shown_alpha times (alpha_map m) day == 0
    /\ ~ shaded out day
    /\ shows_stats out day tbd_label.

(** A day with positive precipitation gets the rain glyph and its inches. *)
Definition rainy_day_shows_rain (times : list datetime)
    (temps_f hums rain_mm : list Q) (loc_name : string)
    (temp_ylim_max x_min x_max : Q) (show_xaxis : bool) (day : Z) : Prop :=
  forall m,
    daily_metrics_and_alpha_with_rain times temps_f hums rain_mm = Some m ->
    let out := plot_location_forecast times temps_f hums (alpha_map m)
                 (day_metrics m) (rain_map m) (all_days m) loc_name
                 temp_ylim_max x_min x_max show_xaxis in
    In day (all_days m) -> 0 < default 0 (rain_map m !! day) ->
    shows_rain out day (default 0 (rain_map m !! day) / 25.4).

(** ** Vocabulary of the further properties *)

(** No sample of [day] with time of day in [09:00, 16:00) is reached by the
    [zip] of the first loop. *)
Definition unbucketed (times : list datetime) (temps_f hums rain_mm : list Q)
    (day : Z) : Prop :=
  forall i, window_sample times day i ->
            (length temps_f <= i \/ length hums <= i \/ length rain_mm <= i)%nat.

(** The fields of a time of day are in range, as they are for every
    [datetime.time]. *)
Definition valid_time (t : time) : Prop :=
  (hour t < 24)%nat /\ (minute t < 60)%nat /\ (second t < 60)%nat
  /\ (Z.of_nat (microsecond t) < 1000000)%Z.

(** Microseconds from 1970-01-01 00:00 to a datetime. *)
Definition micros (t : datetime) : Z :=
  ((dt_date t - 719163) * 86400
   + Z.of_nat (hour (dt_time t) * 3600 + minute (dt_time t) * 60
               + second (dt_time t))) * 1000000
  + Z.of_nat (microsecond (dt_time t)).

(** * Properties *)

(** ** Comparisons on rationals *)

Lemma Qlt_bool_iff (x y : Q) : Qlt_bool x y = true <-> x < y.
Proof.
  unfold Qlt_bool. rewrite negb_true_iff. split.
  - intros H. apply Qnot_le_lt. intros Hle.
    apply Qle_bool_iff in Hle. congruence.
  - intros H. destruct (Qle_bool y x) eqn:E; [|reflexivity].
    apply Qle_bool_iff in E. lra.
Qed.

Lemma Qlt_bool_false (x y : Q) : Qlt_bool x y = false <-> y <= x.
Proof.
  unfold Qlt_bool. rewrite negb_false_iff. apply Qle_bool_iff.
Qed.

Lemma Qle_bool_false (x y : Q) : Qle_bool x y = false <-> y < x.
Proof.
  split.
  - intros H. apply Qnot_le_lt. intros Hle. apply Qle_bool_iff in Hle. congruence.
  - intros H. destruct (Qle_bool x y) eqn:E; [|reflexivity].
    apply Qle_bool_iff in E. lra.
Qed.

(** Turn every boolean comparison among the hypotheses into its proposition. *)
Ltac q_props :=
  repeat match goal with
  | H : (_ || _)%bool = true |- _ => apply orb_true_iff in H; destruct H
  | H : (_ || _)%bool = false |- _ => apply orb_false_iff in H; destruct H
  | H : (_ && _)%bool = true |- _ => apply andb_true_iff in H; destruct H
  | H : (_ && _)%bool = false |- _ => apply andb_false_iff in H; destruct H
  | H : Qle_bool _ _ = true |- _ => apply Qle_bool_iff in H
  | H : Qle_bool _ _ = false |- _ => apply Qle_bool_false in H
  | H : Qlt_bool _ _ = true |- _ => apply Qlt_bool_iff in H
  | H : Qlt_bool _ _ = false |- _ => apply Qlt_bool_false in H
  end.

(** Split on the next boolean test of the goal, keeping its outcome. *)
Ltac q_case :=
  match goal with
  | |- context [if ?c then _ else _] =>
      let E := fresh "E" in destruct c eqn:E; simpl
  end.

Ltac q_cases := repeat q_case; q_props.

Lemma Qdiv_pos_denominator (a b lo hi : Q) :
  0 < b -> lo * b <= a -> a <= hi * b -> lo <= a / b /\ a / b <= hi.
Proof.
  intros Hb Hlo Hhi. split.
  - apply Qle_shift_div_l; assumption.
  - apply Qle_shift_div_r; assumption.
Qed.

Lemma temp_score_range (t : Q) : 0 <= temp_score t /\ temp_score t <= 1.
Proof.
  unfold temp_score, temp_score_traced. q_cases; try lra.
  - apply Qdiv_pos_denominator; lra.
  - apply Qdiv_pos_denominator; lra.
Qed.

Lemma hum_score_range (h : Q) : 0 <= hum_score h /\ hum_score h <= 1.
Proof.
  unfold hum_score. q_cases; try lra.
  apply Qdiv_pos_denominator; lra.
Qed.

Lemma alpha_of_range (max_temp max_hum rain_amt : Q) :
  0 <= alpha_of max_temp max_hum rain_amt
  /\ alpha_of max_temp max_hum rain_amt <= 0.8.
Proof.
  unfold alpha_of, min_alpha, max_alpha.
  destruct (temp_score_range max_temp) as [Ht0 Ht1].
  destruct (hum_score_range max_hum) as [Hh0 Hh1].
  q_case; [lra|].
  assert (0 <= temp_score max_temp * hum_score max_hum) by (apply Qmult_le_0_compat; lra).
  assert (temp_score max_temp * hum_score max_hum <= 1 * 1).
  { apply Qmult_le_compat_nonneg; lra. }
  lra.
Qed.

Lemma alpha_of_dry (max_temp max_hum rain_amt : Q) :
  ~ 0 < rain_amt ->
  alpha_of max_temp max_hum rain_amt == 0.8 * (temp_score max_temp * hum_score max_hum).
Proof.
  intros Hdry. unfold alpha_of, min_alpha, max_alpha.
  q_cases; [contradiction|]. lra.
Qed.

Lemma alpha_of_rain (max_temp max_hum rain_amt : Q) :
  0 < rain_amt -> alpha_of max_temp max_hum rain_amt = 0.
Proof.
  intros Hr. unfold alpha_of. apply Qlt_bool_iff in Hr. rewrite Hr. reflexivity.
Qed.

(** ** The temperature conditional *)

Lemma else_branch_taken_at_35 : ~ else_branch_unreachable 35.
Proof. intros H. apply H. reflexivity. Qed.

Lemma temp_branch_cases (t : Q) :
  match temp_score_branch t with
  | BrExtreme => 80 <= t \/ t <= 32
  | BrIdeal => 60 <= t /\ t <= 69
  | BrRampUp => 40 < t /\ t < 60
  | BrRampDown => 69 < t /\ t < 80
  | BrElse => 32 < t /\ t <= 40
  end.
Proof.
  unfold temp_score_branch, temp_score_traced.
  q_cases; solve [lra | left; lra | right; lra].
Qed.

(** C3, as amended: the final [else] of the temperature conditional is taken
    exactly for a max temperature in (32, 40], where it gives the score 0; the
    four branches before it cover every other rational value. *)
Theorem else_branch_reached_iff (max_temp : Q) :
  (temp_score_branch max_temp = BrElse <-> 32 < max_temp /\ max_temp <= 40)
  /\ (temp_score_branch max_temp = BrElse -> temp_score max_temp = 0).
Proof.
  split; [split|].
  - intros H. pose proof (temp_branch_cases max_temp) as Hc.
    rewrite H in Hc. exact Hc.
  - intros [Hlo Hhi]. pose proof (temp_branch_cases max_temp) as Hc.
    destruct (temp_score_branch max_temp); try reflexivity; lra.
  - unfold temp_score_branch, temp_score, temp_score_traced.
    repeat q_case; intros; try discriminate; reflexivity.
Qed.

Lemma else_branch_reached_iff_witness :
  temp_score_branch 35 = BrElse /\ temp_score 35 = 0.
Proof.
  destruct (else_branch_reached_iff 35) as [[_ Hin] Hscore].
  assert (Hb : temp_score_branch 35 = BrElse).
  { apply Hin. split; [reflexivity | discriminate]. }
  split; [exact Hb | exact (Hscore Hb)].
Defined.

(** ** The curves against their reference tables *)

Lemma ramp_up (t : Q) : (t - 40) / (60 - 40) == ramp 40 0 60 1 t.
Proof. unfold ramp. field. Qed.

Lemma ramp_down (t : Q) : (80 - t) / (80 - 69) == ramp 69 1 80 0 t.
Proof. unfold ramp. field. Qed.

Lemma ramp_humidity (h : Q) : (80 - h) / (80 - 50) == ramp 50 1 80 0 h.
Proof. unfold ramp. field. Qed.

Lemma temp_score_ref (t : Q) : temp_score t == temperatureScore_ref t.
Proof.
  unfold temp_score, temp_score_traced, temperatureScore_ref.
  rewrite (orb_comm (Qle_bool 80 t)).
  repeat q_case; try reflexivity.
  - apply ramp_up.
  - apply ramp_down.
Qed.

Lemma hum_score_ref (h : Q) : hum_score h == humidityScore_ref h.
Proof.
  unfold hum_score, humidityScore_ref.
  repeat q_case; try reflexivity. apply ramp_humidity.
Qed.

(** C4: the two scoring curves agree with the piecewise reference tables at
    every argument, and take the listed values at the listed points. *)
Theorem scoring_curves_match_reference :
  (forall t, temp_score t == temperatureScore_ref t)
  /\ (forall h, hum_score h == humidityScore_ref h)
  /\ temp_score 32 == 0 /\ temp_score 60 == 1 /\ temp_score 69 == 1
  /\ temp_score 80 == 0 /\ temp_score 50 == 0.5 /\ temp_score 74.5 == 0.5
  /\ hum_score 50 == 1 /\ hum_score 80 == 0 /\ hum_score 65 == 0.5.
Proof.
  split; [exact temp_score_ref|]. split; [exact hum_score_ref|].
  repeat split; vm_compute; reflexivity.
Qed.

(** ** Times of day *)

(** A time of day is at or after [h]:00 exactly when its hour is at least [h]. *)
Lemma time_geb_hour (t : time) (h : nat) :
  time_geb t (Time h 0 0 0) = (h <=? hour t)%nat.
Proof.
  destruct t as [ht m s us]. unfold time_geb.
  cbn [hour minute second microsecond].
  destruct (Nat.ltb_spec h ht); [symmetry; apply Nat.leb_le; lia|].
  destruct (Nat.eqb_spec ht h); cbn [negb];
    [subst ht | symmetry; apply Nat.leb_gt; lia].
  rewrite Nat.leb_refl.
  destruct (Nat.ltb_spec 0 m); [reflexivity|].
  destruct (Nat.eqb_spec m 0); cbn [negb]; [|lia].
  destruct (Nat.ltb_spec 0 s); [reflexivity|].
  destruct (Nat.eqb_spec s 0); cbn [negb]; [|lia].
  reflexivity.
Qed.

(** The hour test of line 62 selects the times of day in [09:00, 16:00). *)
Lemma in_window_spec (t : datetime) :
  in_window t = true
  <-> time_geb (dt_time t) (Time 9 0 0 0) = true
      /\ time_geb (dt_time t) (Time 16 0 0 0) = false.
Proof.
  unfold in_window. rewrite !time_geb_hour, andb_true_iff.
  rewrite Nat.leb_le, Nat.ltb_lt, Nat.leb_gt. reflexivity.
Qed.

(** ** The first loop: what ends up in the buckets *)

Lemma zip4_lookup (times : list datetime) (temps_f hums rain_mm : list Q)
    (i : nat) (t : datetime) (tf h r : Q) :
  zip4 times temps_f hums rain_mm !! i = Some (t, tf, h, r)
  <-> times !! i = Some t /\ temps_f !! i = Some tf
      /\ hums !! i = Some h /\ rain_mm !! i = Some r.
Proof.
  revert temps_f hums rain_mm i.
  induction times as [|t0 times IH]; intros temps_f hums rain_mm i.
  - simpl. split; [discriminate | intros [H _]; discriminate].
  - destruct temps_f as [|tf0 temps_f], hums as [|h0 hums],
      rain_mm as [|r0 rain_mm]; simpl;
      try (split; [discriminate | intros (_ & H1 & H2 & H3); discriminate]).
    destruct i as [|i]; simpl.
    + split.
      * intros [= -> -> -> ->]. auto.
      * intros ([= ->] & [= ->] & [= ->] & [= ->]). reflexivity.
    + apply IH.
Qed.

Lemma in_zip4 (times : list datetime) (temps_f hums rain_mm : list Q)
    (t : datetime) (tf h r : Q) :
  In (t, tf, h, r) (zip4 times temps_f hums rain_mm)
  <-> exists i, times !! i = Some t /\ temps_f !! i = Some tf
                /\ hums !! i = Some h /\ rain_mm !! i = Some r.
Proof.
  rewrite <- list_elem_of_In, list_elem_of_lookup.
  split; intros [i Hi]; exists i; apply zip4_lookup; exact Hi.
Qed.

Lemma bucket_temps (l : list (datetime * Q * Q * Q)) (b : buckets) (day : Z) :
  default [] (daily_temps (fold_left bucket_step l b) !! day)
  = default [] (daily_temps b !! day) ++ List.map temp_of (List.filter (picks day) l).
Proof.
  revert b. induction l as [|[[[t tf] h] r] l IH]; intros b; simpl.
  - symmetry. apply app_nil_r.
  - rewrite IH. unfold picks at 2, on_day. simpl.
    destruct (in_window t) eqn:Ew; simpl; [|reflexivity].
    destruct (Z.eqb_spec (dt_date t) day) as [->|Hne]; simpl.
    + rewrite lookup_insert_eq. simpl. rewrite <- app_assoc. reflexivity.
    + rewrite lookup_insert_ne by exact Hne. reflexivity.
Qed.

Lemma bucket_humidity (l : list (datetime * Q * Q * Q)) (b : buckets) (day : Z) :
  default [] (daily_humidity (fold_left bucket_step l b) !! day)
  = default [] (daily_humidity b !! day) ++ List.map hum_of (List.filter (picks day) l).
Proof.
  revert b. induction l as [|[[[t tf] h] r] l IH]; intros b; simpl.
  - symmetry. apply app_nil_r.
  - rewrite IH. unfold picks at 2, on_day. simpl.
    destruct (in_window t) eqn:Ew; simpl; [|reflexivity].
    destruct (Z.eqb_spec (dt_date t) day) as [->|Hne]; simpl.
    + rewrite lookup_insert_eq. simpl. rewrite <- app_assoc. reflexivity.
    + rewrite lookup_insert_ne by exact Hne. reflexivity.
Qed.

Lemma bucket_rain (l : list (datetime * Q * Q * Q)) (b : buckets) (day : Z) :
  default 0.0 (daily_rain (fold_left bucket_step l b) !! day)
  = py_max (default 0.0 (daily_rain b !! day))
      (List.map rain_of (List.filter (picks day) l)).
Proof.
  revert b. induction l as [|[[[t tf] h] r] l IH]; intros b; simpl.
  - reflexivity.
  - rewrite IH. unfold picks at 2, on_day. simpl.
    destruct (in_window t) eqn:Ew; simpl; [|reflexivity].
    destruct (Z.eqb_spec (dt_date t) day) as [->|Hne]; simpl.
    + unfold py_max at 2. simpl. fold (py_max
        (if Qlt_bool (default 0.0 (daily_rain b !! day)) r then r
         else default 0.0 (daily_rain b !! day))
        (List.map rain_of (List.filter (picks day) l))).
      f_equal. unfold rain_of. simpl.
      destruct (Qlt_bool (default 0.0 (daily_rain b !! day)) r).
      * rewrite lookup_insert_eq. reflexivity.
      * rewrite lookup_insert_eq. reflexivity.
    + f_equal.
      destruct (Qlt_bool (default 0.0 (daily_rain b !! dt_date t)) r);
        rewrite ?lookup_insert_ne by exact Hne; reflexivity.
Qed.

Lemma py_max_spec (x : Q) (xs : list Q) :
  In (py_max x xs) (x :: xs) /\ forall y, In y (x :: xs) -> y <= py_max x xs.
Proof.
  revert x. induction xs as [|z xs IH]; intros x.
  - simpl. split; [left; reflexivity|].
    intros y [->|[]]. apply Qle_refl.
  - unfold py_max. simpl.
    fold (py_max (if Qlt_bool x z then z else x) xs).
    destruct (IH (if Qlt_bool x z then z else x)) as [Hin Hub].
    split.
    + destruct Hin as [Hin|Hin]; [|right; right; exact Hin].
      rewrite <- Hin. destruct (Qlt_bool x z); [right; left|left]; reflexivity.
    + intros y Hy.
      assert (Hm : (if Qlt_bool x z then z else x)
                   <= py_max (if Qlt_bool x z then z else x) xs).
      { apply Hub. left. reflexivity. }
      destruct Hy as [->|[->|Hy]].
      * destruct (Qlt_bool y z) eqn:E; q_props; lra.
      * destruct (Qlt_bool x y) eqn:E; q_props; lra.
      * apply Hub. right. exact Hy.
Qed.

(** ** The fallback over all samples of a day *)

Lemma in_enumerate_from {A} (l : list A) (n i : nat) (x : A) :
  In (i, x) (enumerate_from n l) <-> (n <= i)%nat /\ l !! (i - n)%nat = Some x.
Proof.
  revert n. induction l as [|y l IH]; intros n; simpl.
  - split; [intros [] | intros [_ H]; discriminate].
  - rewrite IH. split.
    + intros [[= -> ->] | [Hle Hl]].
      * split; [lia|]. replace (i - i)%nat with 0%nat by lia. reflexivity.
      * split; [lia|]. replace (i - n)%nat with (S (i - S n)) by lia. exact Hl.
    + intros [Hle Hl]. destruct (decide (i = n)) as [->|Hne].
      * left. replace (n - n)%nat with 0%nat in Hl by lia.
        simpl in Hl. congruence.
      * right. split; [lia|].
        replace (i - n)%nat with (S (i - S n)) in Hl by lia. exact Hl.
Qed.

Lemma day_indices_spec (times : list datetime) (day : Z) (i : nat) :
  In i (day_indices times day) <-> day_sample times day i.
Proof.
  unfold day_indices, day_sample. rewrite in_map_iff. split.
  - intros ([j t] & Hj & Hin). simpl in Hj. subst j.
    apply filter_In in Hin as [Hin Hday].
    apply in_enumerate_from in Hin as [_ Hl].
    rewrite Nat.sub_0_r in Hl. exists t. split; [exact Hl|].
    unfold on_day in Hday. simpl in Hday. lia.
  - intros (t & Hl & Hday). exists (i, t). split; [reflexivity|].
    apply filter_In. split.
    + apply in_enumerate_from. rewrite Nat.sub_0_r. split; [lia | exact Hl].
    + unfold on_day. simpl. lia.
Qed.

Lemma max_of_spec (l : list Q) :
  l <> [] ->
  exists m, max_of l = Some m /\ In m l /\ forall y, In y l -> y <= m.
Proof.
  destruct l as [|x xs]; [congruence|]. intros _.
  exists (py_max x xs). split; [reflexivity|]. apply py_max_spec.
Qed.

Lemma max_at_spec (vals : list Q) (idxs : list nat) :
  idxs <> [] ->
  (forall i, In i idxs -> (i < length vals)%nat) ->
  exists m, max_at vals idxs = Some m /\ max_over (fun i => In i idxs) vals m.
Proof.
  intros Hne Hlt.
  assert (Hsome : is_Some (mapM (fun i : nat => vals !! i) idxs)).
  { apply mapM_is_Some. apply Forall_forall. intros i Hi.
    apply lookup_lt_is_Some. apply Hlt. apply list_elem_of_In. exact Hi. }
  destruct Hsome as [picked Hpicked].
  pose proof Hpicked as HF. apply mapM_Some in HF.
  assert (Hpne : picked <> []).
  { intros ->. apply Forall2_nil_inv_r in HF. contradiction. }
  destruct (max_of_spec picked Hpne) as (m & Hm & Hin & Hub).
  exists m. split.
  - unfold max_at. destruct idxs; [congruence|].
    rewrite Hpicked. exact Hm.
  - split.
    + apply list_elem_of_In, list_elem_of_lookup in Hin as [k Hk].
      destruct (Forall2_lookup_r _ _ _ _ _ HF Hk) as (i & Hi & Hv).
      exists i. split; [|exact Hv].
      apply list_elem_of_In, list_elem_of_lookup. eauto.
    + intros i v Hi Hv.
      apply list_elem_of_In, list_elem_of_lookup in Hi as [k Hk].
      destruct (Forall2_lookup_l _ _ _ _ _ HF Hk) as (y & Hy & Hvy).
      simpl in Hvy. rewrite Hv in Hvy. injection Hvy as <-.
      apply Hub. apply list_elem_of_In, list_elem_of_lookup. eauto.
Qed.

(** ** The day list *)

Lemma in_sorted_days (times : list datetime) (day : Z) :
  In day (sorted_days times) <-> exists i, day_sample times day i.
Proof.
  unfold sorted_days, day_set.
  rewrite <- list_elem_of_In, merge_sort_Permutation, elem_of_elements,
    elem_of_list_to_set, list_elem_of_In, in_map_iff.
  unfold day_sample. split.
  - intros (t & Hd & Hin).
    apply list_elem_of_In, list_elem_of_lookup in Hin as [i Hi]. eauto.
  - intros (i & t & Hi & Hd). exists t. split; [exact Hd|].
    apply list_elem_of_In, list_elem_of_lookup. eauto.
Qed.

Lemma sorted_days_sorted (times : list datetime) :
  StronglySorted Z.le (sorted_days times).
Proof. unfold sorted_days. apply (StronglySorted_merge_sort Z.le). Qed.

Lemma sorted_days_NoDup (times : list datetime) : NoDup (sorted_days times).
Proof.
  unfold sorted_days. rewrite merge_sort_Permutation. apply NoDup_elements.
Qed.

(** ** The statistics of one day *)

Lemma max_over_ext (P P' : nat -> Prop) (vals : list Q) (m : Q) :
  (forall i, P i <-> P' i) -> max_over P vals m -> max_over P' vals m.
Proof.
  intros Hext [(i & Hi & Hv) Hub]. split.
  - exists i. split; [apply Hext; exact Hi | exact Hv].
  - intros j v Hj. apply Hub. apply Hext. exact Hj.
Qed.

Lemma in_picked (times : list datetime) (temps_f hums rain_mm : list Q)
    (day : Z) (s : datetime * Q * Q * Q) :
  In s (List.filter (picks day) (zip4 times temps_f hums rain_mm))
  <-> exists i, window_sample times day i /\ temps_f !! i = Some (temp_of s)
                /\ hums !! i = Some (hum_of s) /\ rain_mm !! i = Some (rain_of s)
                /\ times !! i = Some s.1.1.1.
Proof.
  destruct s as [[[t tf] h] r]. rewrite filter_In, in_zip4.
  unfold picks, on_day, window_sample, temp_of, hum_of, rain_of. simpl. split.
  - intros [(i & Ht & Htf & Hh & Hr) Hp].
    apply andb_true_iff in Hp as [Hw Hd].
    apply in_window_spec in Hw.
    exists i. repeat split; try assumption.
    exists t. split; [assumption|]. split; [lia | exact Hw].
  - intros (i & (t' & Ht' & Hd & Hw) & Htf & Hh & Hr & Ht).
    assert (t' = t) as -> by congruence.
    split; [exists i; auto|].
    apply andb_true_iff. split; [apply in_window_spec; exact Hw | lia].
Qed.

Lemma aligned_sample (times : list datetime) (temps_f hums rain_mm : list Q)
    (i : nat) (t : datetime) :
  aligned times temps_f hums rain_mm -> times !! i = Some t ->
  exists tf h r, zip4 times temps_f hums rain_mm !! i = Some (t, tf, h, r).
Proof.
  intros (H1 & H2 & H3) Ht.
  pose proof (lookup_lt_Some _ _ _ Ht) as Hlt.
  destruct (lookup_lt_is_Some_2 temps_f i) as [tf Htf]; [lia|].
  destruct (lookup_lt_is_Some_2 hums i) as [h Hh]; [lia|].
  destruct (lookup_lt_is_Some_2 rain_mm i) as [r Hr]; [lia|].
  exists tf, h, r. apply zip4_lookup. auto.
Qed.

(** Under alignment, the picked samples of a day are its window samples. *)
Lemma picked_values (times : list datetime) (temps_f hums rain_mm : list Q)
    (day : Z) (proj : datetime * Q * Q * Q -> Q) (vals : list Q) :
  aligned times temps_f hums rain_mm ->
  (proj = temp_of /\ vals = temps_f) \/ (proj = hum_of /\ vals = hums)
  \/ (proj = rain_of /\ vals = rain_mm) ->
  forall v,
    In v (List.map proj (List.filter (picks day) (zip4 times temps_f hums rain_mm)))
    <-> exists i, window_sample times day i /\ vals !! i = Some v.
Proof.
  intros Hal Hproj v. rewrite in_map_iff. split.
  - intros (s & <- & Hin). apply in_picked in Hin
      as (i & Hw & Htf & Hh & Hr & _).
    exists i. split; [exact Hw|].
    destruct Hproj as [[-> ->]|[[-> ->]|[-> ->]]]; assumption.
  - intros (i & Hw & Hv). pose proof Hw as (t & Ht & Hd & Hwin).
    destruct (aligned_sample _ _ _ _ _ _ Hal Ht) as (tf & h & r & Hz).
    pose proof Hz as Hz'. apply zip4_lookup in Hz' as (_ & Htf & Hh & Hr).
    exists (t, tf, h, r). split.
    + destruct Hproj as [[-> ->]|[[-> ->]|[-> ->]]];
        unfold temp_of, hum_of, rain_of; simpl; congruence.
    + apply in_picked. exists i. unfold temp_of, hum_of, rain_of. simpl. auto.
Qed.

Lemma py_max_over (P : nat -> Prop) (vals : list Q) (x : Q) (xs : list Q) :
  (forall v, In v (x :: xs) <-> exists i, P i /\ vals !! i = Some v) ->
  max_over P vals (py_max x xs).
Proof.
  intros Hchar. destruct (py_max_spec x xs) as [Hin Hub]. split.
  - apply Hchar. exact Hin.
  - intros i v Hi Hv. apply Hub. apply Hchar. eauto.
Qed.

Lemma day_indices_bound (times : list datetime) (vals : list Q) (day : Z) :
  length vals = length times ->
  forall i, In i (day_indices times day) -> (i < length vals)%nat.
Proof.
  intros Hlen i Hi. apply day_indices_spec in Hi as (t & Ht & _).
  apply lookup_lt_Some in Ht. lia.
Qed.

Lemma day_stats_spec (times : list datetime) (temps_f hums rain_mm : list Q)
    (day : Z) :
  aligned times temps_f hums rain_mm ->
  (exists i, day_sample times day i) ->
  exists max_temp max_hum,
    day_stats times temps_f hums (fill_buckets times temps_f hums rain_mm) day
    = Some (max_temp, max_hum)
    /\ ((exists i, window_sample times day i) ->
        max_over (window_sample times day) temps_f max_temp
        /\ max_over (window_sample times day) hums max_hum)
    /\ (~ (exists i, window_sample times day i) ->
        max_over (day_sample times day) temps_f max_temp
        /\ max_over (day_sample times day) hums max_hum).
Proof.
  intros Hal [i0 Hi0].
  pose proof (picked_values times temps_f hums rain_mm day temp_of temps_f Hal
                (or_introl (conj eq_refl eq_refl))) as Htemps.
  pose proof (picked_values times temps_f hums rain_mm day hum_of hums Hal
                (or_intror (or_introl (conj eq_refl eq_refl)))) as Hhums.
  unfold day_stats, fill_buckets.
  rewrite bucket_temps, bucket_humidity. simpl. rewrite !lookup_empty. simpl.
  destruct (List.filter (picks day) (zip4 times temps_f hums rain_mm))
    as [|s rest] eqn:Epicked; simpl in *.
  - assert (Hnone : ~ exists i, window_sample times day i).
    { intros [i Hi]. pose proof Hi as (t & Ht & _).
      destruct (lookup_lt_is_Some_2 temps_f i) as [v Hv].
      { destruct Hal as (-> & _). eapply lookup_lt_Some. exact Ht. }
      apply (Htemps v). eauto. }
    assert (Hidx : day_indices times day <> []).
    { intros E. apply day_indices_spec in Hi0. rewrite E in Hi0. exact Hi0. }
    destruct Hal as (Hl1 & Hl2 & Hl3).
    destruct (max_at_spec temps_f _ Hidx (day_indices_bound _ _ day Hl1))
      as (mt & Emt & Hmt).
    destruct (max_at_spec hums _ Hidx (day_indices_bound _ _ day Hl2))
      as (mh & Emh & Hmh).
    exists mt, mh. rewrite Emt. simpl. rewrite Emh. simpl.
    split; [reflexivity|]. split; [intros Hw; contradiction|].
    intros _. split.
    + eapply max_over_ext; [|exact Hmt]. intros i. apply day_indices_spec.
    + eapply max_over_ext; [|exact Hmh]. intros i. apply day_indices_spec.
  - eexists _, _. split; [reflexivity|]. split.
    + intros _. split; apply py_max_over; assumption.
    + intros Hnone. exfalso. apply Hnone.
      destruct (proj1 (Htemps (temp_of s)) (or_introl eq_refl)) as (i & Hi & _).
      exists i. exact Hi.
Qed.

Lemma day_stats_no_sample (times : list datetime) (temps_f hums rain_mm : list Q)
    (day : Z) :
  ~ (exists i, day_sample times day i) ->
  day_stats times temps_f hums (fill_buckets times temps_f hums rain_mm) day
  = Some (0, 0).
Proof.
  intros Hnone. unfold day_stats, fill_buckets.
  rewrite bucket_temps, bucket_humidity. simpl. rewrite !lookup_empty. simpl.
  destruct (List.filter (picks day) (zip4 times temps_f hums rain_mm))
    as [|s rest] eqn:Epicked; simpl.
  - destruct (day_indices times day) as [|i idxs] eqn:Eidx; [reflexivity|].
    exfalso. apply Hnone. exists i. apply day_indices_spec.
    rewrite Eidx. left. reflexivity.
  - exfalso. apply Hnone.
    assert (Hin : In s (List.filter (picks day) (zip4 times temps_f hums rain_mm))).
    { rewrite Epicked. left. reflexivity. }
    apply in_picked in Hin as (i & (t & Ht & Hd & _) & _).
    exists i, t. auto.
Qed.

(** ** The second loop: what ends up in the three dictionaries *)

Lemma day_loop_spec (times : list datetime) (temps_f hums : list Q) (b : buckets)
    (days : list Z) :
  forall am dm rm am' dm' rm',
    day_loop times temps_f hums b days am dm rm = Some (am', dm', rm') ->
    forall day,
      (In day days ->
       exists st,
         day_stats times temps_f hums b day = Some st
         /\ dm' !! day = Some st
         /\ rm' !! day = Some (default 0.0 (daily_rain b !! day))
         /\ am' !! day
            = Some (alpha_of st.1 st.2 (default 0.0 (daily_rain b !! day))))
      /\ (~ In day days ->
          am' !! day = am !! day /\ dm' !! day = dm !! day
          /\ rm' !! day = rm !! day).
Proof.
  induction days as [|d rest IH]; intros am dm rm am' dm' rm' Hloop day.
  - simpl in Hloop. injection Hloop as <- <- <-.
    split; [intros [] | auto].
  - simpl in Hloop.
    destruct (day_stats times temps_f hums b d) as [st|] eqn:Est;
      simpl in Hloop; [|discriminate].
    destruct (IH _ _ _ _ _ _ Hloop day) as [Hin Hout].
    destruct (in_dec Z.eq_dec day rest) as [Hrest|Hrest].
    + split; [intros _; apply Hin; exact Hrest|].
      intros Hn. exfalso. apply Hn. right. exact Hrest.
    + destruct (Hout Hrest) as (Ha & Hd & Hr).
      destruct (Z.eq_dec d day) as [->|Hne].
      * split; [|intros Hn; exfalso; apply Hn; left; reflexivity].
        intros _. exists st. rewrite Ha, Hd, Hr, !lookup_insert_eq. auto.
      * split; [intros [?|?]; contradiction|].
        intros _. rewrite Ha, Hd, Hr, !lookup_insert_ne by exact Hne. auto.
Qed.

Lemma day_loop_total (times : list datetime) (temps_f hums : list Q) (b : buckets)
    (days : list Z) :
  (forall day, In day days -> is_Some (day_stats times temps_f hums b day)) ->
  forall am dm rm, is_Some (day_loop times temps_f hums b days am dm rm).
Proof.
  induction days as [|d rest IH]; intros Hall am dm rm; simpl.
  - eauto.
  - destruct (Hall d (or_introl eq_refl)) as [st ->]. simpl.
    apply IH. intros day Hday. apply Hall. right. exact Hday.
Qed.

(** Every listed day has one entry in each dictionary, made of the day's
    statistics, the bucketed rain and the score of the two. *)
Lemma daily_metrics_entries (times : list datetime) (temps_f hums rain_mm : list Q)
    (m : metrics) :
  daily_metrics_and_alpha_with_rain times temps_f hums rain_mm = Some m ->
  all_days m = sorted_days times
  /\ forall day,
       (In day (all_days m) ->
        exists max_temp max_hum rain_amt,
          day_stats times temps_f hums
            (fill_buckets times temps_f hums rain_mm) day
          = Some (max_temp, max_hum)
          /\ rain_amt
             = default 0.0
                 (daily_rain (fill_buckets times temps_f hums rain_mm) !! day)
          /\ day_metrics m !! day = Some (max_temp, max_hum)
          /\ rain_map m !! day = Some rain_amt
          /\ alpha_map m !! day = Some (alpha_of max_temp max_hum rain_amt))
       /\ (~ In day (all_days m) ->
           alpha_map m !! day = None /\ day_metrics m !! day = None
           /\ rain_map m !! day = None).
Proof.
  unfold daily_metrics_and_alpha_with_rain. intros Hm.
  destruct (day_loop times temps_f hums
              (fill_buckets times temps_f hums rain_mm) (sorted_days times) ∅ ∅ ∅)
    as [[[am dm] rm]|] eqn:Eloop; simpl in Hm; [|discriminate].
  injection Hm as <-. simpl. split; [reflexivity|]. intros day.
  destruct (day_loop_spec _ _ _ _ _ _ _ _ _ _ _ Eloop day) as [Hin Hout].
  split.
  - intros Hday. destruct (Hin Hday) as ([mt mh] & Hst & Hd & Hr & Ha).
    eexists mt, mh, _. split; [exact Hst|]. split; [reflexivity|].
    split; [exact Hd|]. split; [exact Hr | exact Ha].
  - intros Hday. destruct (Hout Hday) as (Ha & Hd & Hr).
    rewrite Ha, Hd, Hr, !lookup_empty. auto.
Qed.

Lemma daily_metrics_total (times : list datetime) (temps_f hums rain_mm : list Q) :
  aligned times temps_f hums rain_mm ->
  exists m, daily_metrics_and_alpha_with_rain times temps_f hums rain_mm = Some m.
Proof.
  intros Hal. unfold daily_metrics_and_alpha_with_rain.
  destruct (day_loop_total times temps_f hums
              (fill_buckets times temps_f hums rain_mm) (sorted_days times))
    with (am := (∅ : gmap Z Q)) (dm := (∅ : gmap Z (Q * Q))) (rm := (∅ : gmap Z Q))
    as [r Hr].
  - intros day Hday. apply in_sorted_days in Hday.
    destruct (day_stats_spec _ _ _ _ day Hal Hday) as (mt & mh & E & _).
    rewrite E. eauto.
  - rewrite Hr. simpl. eauto.
Qed.

(** ** Precipitation and the rain override *)

Lemma evening_rain_not_counted :
  ~ rain_over_whole_day [at_time 739000 18 0] [65] [40] [2] 739000.
Proof.
  intros (m & r & Hm & [(i & _ & Hi) _] & (r' & Hr' & Heq) & _).
  assert (Hc : (m' ← daily_metrics_and_alpha_with_rain
                       [at_time 739000 18 0] [65] [40] [2];
                rain_map m' !! 739000%Z) = Some 0.0).
  { vm_compute. reflexivity. }
  rewrite Hm in Hc. simpl in Hc. rewrite Hr' in Hc. injection Hc as ->.
  destruct i as [|i]; simpl in Hi; [|discriminate].
  injection Hi as <-. vm_compute in Heq. discriminate.
Qed.

(** The same day is scored as a dry one although it rains 2 mm at 18:00. *)
Lemma evening_rain_scored_dry :
  exists m a,
    daily_metrics_and_alpha_with_rain [at_time 739000 18 0] [65] [40] [2] = Some m
    /\ rain_map m !! 739000%Z = Some 0.0
    /\ alpha_map m !! 739000%Z = Some a /\ a == 0.8.
Proof.
  destruct (daily_metrics_and_alpha_with_rain [at_time 739000 18 0] [65] [40] [2])
    as [m|] eqn:Em; [|vm_compute in Em; discriminate].
  assert (Hc : (m' ← daily_metrics_and_alpha_with_rain
                       [at_time 739000 18 0] [65] [40] [2];
                Some (rain_map m' !! 739000%Z, alpha_map m' !! 739000%Z))
               = Some (Some 0.0, Some (alpha_of 65 40 0.0))).
  { vm_compute. reflexivity. }
  rewrite Em in Hc. simpl in Hc. injection Hc as Hr Ha.
  exists m, (alpha_of 65 40 0.0). repeat split; try assumption.
Qed.

(** C1, as amended: for aligned sample lists the function returns, and for
    every day of the sequence the recorded precipitation is the largest
    precipitation among the day's samples with hour in [9, 16), or 0 when
    none of them is positive; whenever it is positive the favorability of
    the day is 0. *)
Theorem rain_is_window_max_and_overrides
    (times : list datetime) (temps_f hums rain_mm : list Q) :
  aligned times temps_f hums rain_mm ->
  exists m,
    daily_metrics_and_alpha_with_rain times temps_f hums rain_mm = Some m
    /\ forall day, In day (all_days m) ->
       exists r,
         rain_map m !! day = Some r
         /\ 0 <= r
         /\ (forall i v, window_sample times day i -> rain_mm !! i = Some v -> v <= r)
         /\ (r == 0 \/ exists i, window_sample times day i /\ rain_mm !! i = Some r)
         /\ (0 < r -> alpha_map m !! day = Some 0).
Proof.
  intros Hal. destruct (daily_metrics_total _ _ _ _ Hal) as [m Hm].
  exists m. split; [exact Hm|]. intros day Hday.
  destruct (daily_metrics_entries _ _ _ _ _ Hm) as [_ Hent].
  destruct (proj1 (Hent day) Hday) as (mt & mh & r & _ & Hr & _ & Hrm & Ham).
  exists r. split; [exact Hrm|].
  unfold fill_buckets in Hr. rewrite bucket_rain in Hr. simpl in Hr.
  rewrite lookup_empty in Hr. simpl in Hr.
  pose proof (picked_values times temps_f hums rain_mm day rain_of rain_mm Hal
                (or_intror (or_intror (conj eq_refl eq_refl)))) as Hrain.
  destruct (py_max_spec 0.0
              (List.map rain_of
                 (List.filter (picks day) (zip4 times temps_f hums rain_mm))))
    as [Hin Hub].
  rewrite <- Hr in Hin, Hub.
  split; [|split; [|split]].
  - assert (H0 : 0.0 <= r) by (apply Hub; left; reflexivity). lra.
  - intros i v Hi Hv. apply Hub. right. apply Hrain. eauto.
  - destruct Hin as [<-|Hin]; [left; reflexivity|].
    right. apply Hrain. exact Hin.
  - intros Hpos. rewrite Ham. f_equal. apply alpha_of_rain. exact Hpos.
Qed.

Lemma rain_is_window_max_and_overrides_witness :
  exists m,
    daily_metrics_and_alpha_with_rain
      [at_time 739000 10 0; at_time 739000 18 0] [65; 60] [40; 45] [2; 5] = Some m
    /\ forall day, In day (all_days m) ->
       exists r,
         rain_map m !! day = Some r
         /\ 0 <= r
         /\ (forall i v,
               window_sample [at_time 739000 10 0; at_time 739000 18 0] day i ->
               [2; 5] !! i = Some v -> v <= r)
         /\ (r == 0
             \/ exists i,
                 window_sample [at_time 739000 10 0; at_time 739000 18 0] day i
                 /\ [2; 5] !! i = Some r)
         /\ (0 < r -> alpha_map m !! day = Some 0).
Proof.
  apply (rain_is_window_max_and_overrides
           [at_time 739000 10 0; at_time 739000 18 0] [65; 60] [40; 45] [2; 5]).
  repeat split; reflexivity.
Defined.

(** ** Daily maxima *)

(** C5: for aligned sample lists the function returns; the listed days are the
    days of the samples; for each of them max temperature and max humidity are
    the maxima over the day's samples with hour in [9, 16) when there is one,
    and over all of the day's samples otherwise; for a day without any sample
    the statistics of lines 76-87 are both 0. *)
Theorem daily_maxima (times : list datetime) (temps_f hums rain_mm : list Q) :
  aligned times temps_f hums rain_mm ->
  exists m,
    daily_metrics_and_alpha_with_rain times temps_f hums rain_mm = Some m
    /\ (forall day, In day (all_days m) <-> exists i, day_sample times day i)
    /\ (forall day, In day (all_days m) ->
        exists max_temp max_hum,
          day_metrics m !! day = Some (max_temp, max_hum)
          /\ ((exists i, window_sample times day i) ->
              max_over (window_sample times day) temps_f max_temp
              /\ max_over (window_sample times day) hums max_hum)
          /\ (~ (exists i, window_sample times day i) ->
              max_over (day_sample times day) temps_f max_temp
              /\ max_over (day_sample times day) hums max_hum))
    /\ (forall day, ~ (exists i, day_sample times day i) ->
        day_stats times temps_f hums
          (fill_buckets times temps_f hums rain_mm) day = Some (0, 0)).
Proof.
  intros Hal. destruct (daily_metrics_total _ _ _ _ Hal) as [m Hm].
  exists m. split; [exact Hm|].
  destruct (daily_metrics_entries _ _ _ _ _ Hm) as [Hdays Hent].
  split; [|split].
  - intros day. rewrite Hdays. apply in_sorted_days.
  - intros day Hday.
    destruct (proj1 (Hent day) Hday) as (mt & mh & r & Hst & _ & Hdm & _).
    assert (Hsample : exists i, day_sample times day i).
    { apply in_sorted_days. rewrite <- Hdays. exact Hday. }
    destruct (day_stats_spec _ _ _ _ day Hal Hsample)
      as (mt' & mh' & Hst' & Hwin & Hall).
    rewrite Hst in Hst'. injection Hst' as <- <-.
    exists mt, mh. auto.
  - intros day Hnone. apply day_stats_no_sample. exact Hnone.
Qed.

Lemma daily_maxima_witness :
  exists m,
    daily_metrics_and_alpha_with_rain
      [at_time 739000 10 0; at_time 739000 13 0; at_time 739000 18 0]
      [68; 70; 72] [55; 50; 48] [0; 0; 0] = Some m
    /\ day_metrics m !! 739000%Z = Some (70, 55).
Proof.
  destruct (daily_maxima
              [at_time 739000 10 0; at_time 739000 13 0; at_time 739000 18 0]
              [68; 70; 72] [55; 50; 48] [0; 0; 0]) as (m & Hm & _).
  - repeat split; reflexivity.
  - exists m. split; [exact Hm|].
    assert (Hc : (m' ← daily_metrics_and_alpha_with_rain
                         [at_time 739000 10 0; at_time 739000 13 0;
                          at_time 739000 18 0]
                         [68; 70; 72] [55; 50; 48] [0; 0; 0];
                  day_metrics m' !! 739000%Z) = Some (70, 55)).
    { vm_compute. reflexivity. }
    rewrite Hm in Hc. exact Hc.
Defined.

(** ** The favorability values *)

(** C6: every favorability the function stores lies in [0, 0.8], and so does
    the one the renderer uses; it is 0.8 times the product of the two scores
    of the day's statistics when the day's rain is not positive, and the
    renderer uses that value when the day also has a sample at or after noon. *)
Theorem favorability_range (times : list datetime) (temps_f hums rain_mm : list Q)
    (m : metrics) (day : Z) (a : Q) :
  daily_metrics_and_alpha_with_rain times temps_f hums rain_mm = Some m ->
  alpha_map m !! day = Some a ->
  (0 <= a /\ a <= 0.8)
  /\ (0 <= shown_alpha times (alpha_map m) day
      /\ shown_alpha times (alpha_map m) day <= 0.8)
  /\ exists max_temp max_hum rain_amt,
       day_metrics m !! day = Some (max_temp, max_hum)
       /\ rain_map m !! day = Some rain_amt
       /\ (~ 0 < rain_amt ->
           a == 0.8 * (temp_score max_temp * hum_score max_hum))
       /\ (~ 0 < rain_amt -> has_post_noon_data times day = true ->
           shown_alpha times (alpha_map m) day
           == 0.8 * (temp_score max_temp * hum_score max_hum)).
Proof.
  intros Hm Ha.
  destruct (daily_metrics_entries _ _ _ _ _ Hm) as [_ Hent].
  destruct (in_dec Z.eq_dec day (all_days m)) as [Hday|Hday].
  2:{ destruct (proj2 (Hent day) Hday) as (Hnone & _). congruence. }
  destruct (proj1 (Hent day) Hday) as (mt & mh & r & _ & _ & Hdm & Hrm & Ham).
  rewrite Ha in Ham. injection Ham as ->.
  pose proof (alpha_of_range mt mh r) as Hrange.
  split; [exact Hrange|]. split.
  - unfold shown_alpha. rewrite Ha. simpl.
    destruct (has_post_noon_data times day); simpl; [exact Hrange | lra].
  - exists mt, mh, r. split; [exact Hdm|]. split; [exact Hrm|]. split.
    + apply alpha_of_dry.
    + intros Hdry Hnoon. unfold shown_alpha. rewrite Ha, Hnoon. simpl.
      apply alpha_of_dry. exact Hdry.
Qed.

Lemma favorability_range_witness :
  exists m a,
    daily_metrics_and_alpha_with_rain
      [at_time 739000 10 0; at_time 739000 13 0; at_time 739000 18 0]
      [68; 70; 72] [55; 50; 48] [0; 0; 0] = Some m
    /\ alpha_map m !! 739000%Z = Some a
    /\ 0 <= a /\ a <= 0.8.
Proof.
  destruct (daily_metrics_and_alpha_with_rain
              [at_time 739000 10 0; at_time 739000 13 0; at_time 739000 18 0]
              [68; 70; 72] [55; 50; 48] [0; 0; 0]) as [m|] eqn:Em;
    [|vm_compute in Em; discriminate].
  assert (Hc : (m' ← daily_metrics_and_alpha_with_rain
                       [at_time 739000 10 0; at_time 739000 13 0;
                        at_time 739000 18 0]
                       [68; 70; 72] [55; 50; 48] [0; 0; 0];
                alpha_map m' !! 739000%Z) <> None).
  { vm_compute. discriminate. }
  rewrite Em in Hc. simpl in Hc.
  destruct (alpha_map m !! 739000%Z) as [a|] eqn:Ea; [|congruence].
  exists m, a. split; [reflexivity|]. split; [exact Ea|].
  exact (proj1 (favorability_range _ _ _ _ m 739000%Z a Em Ea)).
Defined.

(** ** What the renderer draws for a day *)

Lemma date2num_inj (d d' : Z) : date2num d = date2num d' -> d = d'.
Proof. unfold date2num, inject_Z. intros [= H]. lia. Qed.

Lemma in_plot_days (times : list datetime) (am : gmap Z Q) (dm : gmap Z (Q * Q))
    (rm : gmap Z Q) (days : list Z) (ymin ymax : Q) (c : draw) :
  In c (plot_days times am dm rm days ymin ymax)
  <-> exists day, In day days /\ Some day <> first_day_of days
                  /\ In c (plot_day times am dm rm ymin ymax day).
Proof.
  unfold plot_days. rewrite in_flat_map. split.
  - intros (day & Hday & Hc). exists day.
    destruct (decide (Some day = first_day_of days)); [destruct Hc | auto].
  - intros (day & Hday & Hne & Hc). exists day. split; [exact Hday|].
    destruct (decide (Some day = first_day_of days)); [contradiction | exact Hc].
Qed.

(** The calls of the day loop are the only shading and text calls of a band. *)
Lemma in_band (times : list datetime) (temps_f hums : list Q) (am : gmap Z Q)
    (dm : gmap Z (Q * Q)) (rm : gmap Z Q) (days : list Z) (loc_name : string)
    (temp_ylim_max x_min x_max : Q) (show_xaxis : bool) (c : draw) :
  match c with axvspan _ _ _ | text _ _ _ _ _ _ => True | _ => False end ->
  In c (plot_location_forecast times temps_f hums am dm rm days loc_name
          temp_ylim_max x_min x_max show_xaxis)
  <-> In c (plot_days times am dm rm days 0
              (temp_ylim_max + temp_ylim_max * 0.05)).
Proof.
  intros Hkind. unfold plot_location_forecast. rewrite !in_app_iff. split.
  - intros [Hpre|[Hdays|[Hline|Hpost]]].
    + simpl in Hpre. destruct c; try contradiction;
        repeat (destruct Hpre as [Hpre|Hpre]; try discriminate); contradiction.
    + exact Hdays.
    + destruct days; simpl in Hline; [contradiction|].
      destruct Hline as [<-|[]]. contradiction.
    + simpl in Hpost. destruct c; try contradiction;
        repeat (destruct Hpost as [Hpost|Hpost]; try discriminate); contradiction.
  - intros Hdays. right. left. exact Hdays.
Qed.

Lemma shaded_only_if_favorable (times : list datetime) (am : gmap Z Q)
    (dm : gmap Z (Q * Q)) (rm : gmap Z Q) (days : list Z) (ymin ymax : Q)
    (day : Z) (x1 a : Q) :
  In (axvspan (date2num day) x1 a) (plot_days times am dm rm days ymin ymax) ->
  0 < shown_alpha times am day.
Proof.
  intros Hin. apply in_plot_days in Hin as (d & _ & _ & Hin).
  unfold plot_day in Hin. rewrite !in_app_iff in Hin.
  destruct Hin as [Hin|[Hin|[Hin|Hin]]].
  - simpl in Hin. destruct Hin as [Hin|[]]. discriminate.
  - destruct (Qlt_bool 0 (shown_alpha times am d)) eqn:E; simpl in Hin;
      [|contradiction].
    destruct Hin as [[= Hd _ _]|[]]. assert (d = day) as -> by lia.
    apply Qlt_bool_iff. exact E.
  - simpl in Hin. destruct Hin as [Hin|[Hin|[]]]; discriminate.
  - destruct (Qlt_bool 0 (default 0.0 (rm !! d) / 25.4)); simpl in Hin;
      [|contradiction].
    destruct Hin as [Hin|[Hin|[]]]; discriminate.
Qed.

Lemma incomplete_shown_alpha (times : list datetime) (am : gmap Z Q) (day : Z) :
  has_post_noon_data times day = false -> shown_alpha times am day = 0.
Proof. intros H. unfold shown_alpha. rewrite H. reflexivity. Qed.

Lemma incomplete_label (times : list datetime) (dm : gmap Z (Q * Q)) (day : Z) :
  has_post_noon_data times day = false -> label_text times dm day = tbd_label.
Proof. intros H. unfold label_text. rewrite H. reflexivity. Qed.

Lemma time_geb_noon (t : time) : time_geb t noon = (12 <=? hour t)%nat.
Proof. apply time_geb_hour. Qed.

Lemma has_post_noon_data_spec (times : list datetime) (day : Z) :
  has_post_noon_data times day = true
  <-> exists i t, times !! i = Some t /\ dt_date t = day
                  /\ (12 <= hour (dt_time t))%nat.
Proof.
  unfold has_post_noon_data. rewrite existsb_exists. split.
  - intros (t & Hin & Hc). apply andb_true_iff in Hc as [Hd Hn].
    apply list_elem_of_In, list_elem_of_lookup in Hin as [i Hi].
    exists i, t. split; [exact Hi|]. unfold on_day in Hd.
    rewrite time_geb_noon in Hn. apply Nat.leb_le in Hn. split; [lia | exact Hn].
  - intros (i & t & Hi & Hd & Hn). exists t. split.
    + apply list_elem_of_In, list_elem_of_lookup. eauto.
    + apply andb_true_iff. unfold on_day. rewrite time_geb_noon.
      split; [lia | apply Nat.leb_le; exact Hn].
Qed.

(** ** Incomplete days *)

Lemma first_day_not_labelled :
  ~ incomplete_day_shows_tbd [at_time 739000 6 0; at_time 739000 9 30]
      [60; 65] [40; 40] [0; 0] "Farley" 65 0 1 true 739000.
Proof.
  unfold incomplete_day_shows_tbd. intros H.
  destruct (daily_metrics_and_alpha_with_rain
              [at_time 739000 6 0; at_time 739000 9 30] [60; 65] [40; 40] [0; 0])
    as [m|] eqn:Em; [|vm_compute in Em; discriminate].
  specialize (H m eq_refl). cbv zeta in H.
  destruct (daily_metrics_entries _ _ _ _ _ Em) as [Hdays _].
  assert (Hs : sorted_days [at_time 739000 6 0; at_time 739000 9 30]
               = [739000%Z]) by (vm_compute; reflexivity).
  rewrite Hs in Hdays. rewrite Hdays in H.
  destruct (H (or_introl eq_refl) eq_refl) as (_ & _ & (y & c & Hin)).
  apply in_band in Hin; [|exact I].
  apply in_plot_days in Hin as (d & Hd & Hfirst & _).
  destruct Hd as [<-|[]]. apply Hfirst. reflexivity.
Qed.

(** C2, as amended: for every day of the sequence other than its first day,
    when no sample of the day is at or after 12:00 the renderer uses
    favorability 0, draws no shading for the day and prints
    "T: TBD, H: TBD" as its stats line. *)
Theorem incomplete_day_shows_tbd_after_first
    (times : list datetime) (temps_f hums rain_mm : list Q) (m : metrics)
    (loc_name : string) (temp_ylim_max x_min x_max : Q) (show_xaxis : bool)
    (day : Z) :
  daily_metrics_and_alpha_with_rain times temps_f hums rain_mm = Some m ->
  In day (all_days m) ->
  first_day_of (all_days m) <> Some day ->
  has_post_noon_data times day = false ->
  shown_alpha times (alpha_map m) day == 0
  /\ ~ shaded (plot_location_forecast times temps_f hums (alpha_map m)
                 (day_metrics m) (rain_map m) (all_days m) loc_name
                 temp_ylim_max x_min x_max show_xaxis) day
  /\ shows_stats (plot_location_forecast times temps_f hums (alpha_map m)
                    (day_metrics m) (rain_map m) (all_days m) loc_name
                    temp_ylim_max x_min x_max show_xaxis) day tbd_label.
Proof.
  intros _ Hday Hfirst Hnoon. split; [|split].
  - rewrite incomplete_shown_alpha by exact Hnoon. reflexivity.
  - intros (x1 & a & Hin). apply in_band in Hin; [|exact I].
    apply shaded_only_if_favorable in Hin.
    rewrite incomplete_shown_alpha in Hin by exact Hnoon.
    revert Hin. apply Qlt_irrefl.
  - unfold shows_stats. eexists _, _. apply in_band; [exact I|].
    apply in_plot_days. exists day. split; [exact Hday|].
    split; [congruence|].
    unfold plot_day. rewrite !in_app_iff. right. right. left.
    rewrite incomplete_label by exact Hnoon. right. left. reflexivity.
Qed.

Lemma incomplete_day_shows_tbd_after_first_witness :
  exists m,
    daily_metrics_and_alpha_with_rain
      [at_time 739000 10 0; at_time 739000 13 0; at_time 739001 6 0;
       at_time 739001 9 30]
      [60; 65; 61; 64] [40; 40; 45; 45] [0; 0; 0; 0] = Some m
    /\ shows_stats (plot_location_forecast
                      [at_time 739000 10 0; at_time 739000 13 0;
                       at_time 739001 6 0; at_time 739001 9 30]
                      [60; 65; 61; 64] [40; 40; 45; 45] (alpha_map m)
                      (day_metrics m) (rain_map m) (all_days m) "Farley"
                      65 0 1 true) 739001 tbd_label.
Proof.
  destruct (daily_metrics_and_alpha_with_rain
              [at_time 739000 10 0; at_time 739000 13 0; at_time 739001 6 0;
               at_time 739001 9 30]
              [60; 65; 61; 64] [40; 40; 45; 45] [0; 0; 0; 0])
    as [m|] eqn:Em; [|vm_compute in Em; discriminate].
  exists m. split; [reflexivity|].
  destruct (daily_metrics_entries _ _ _ _ _ Em) as [Hdays _].
  assert (Hs : sorted_days [at_time 739000 10 0; at_time 739000 13 0;
                            at_time 739001 6 0; at_time 739001 9 30]
               = [739000%Z; 739001%Z]) by (vm_compute; reflexivity).
  rewrite Hs in Hdays.
  refine (proj2 (proj2 (incomplete_day_shows_tbd_after_first
                          _ _ _ _ m "Farley" 65 0 1 true 739001%Z Em _ _ _))).
  - rewrite Hdays. right. left. reflexivity.
  - rewrite Hdays. vm_compute. discriminate.
  - reflexivity.
Defined.

(** ** Rain annotations *)

Lemma first_day_rain_not_drawn :
  ~ rainy_day_shows_rain [at_time 739000 10 0; at_time 739000 13 0]
      [65; 66] [40; 40] [2; 0] "Farley" 66 0 1 true 739000.
Proof.
  unfold rainy_day_shows_rain. intros H.
  destruct (daily_metrics_and_alpha_with_rain
              [at_time 739000 10 0; at_time 739000 13 0] [65; 66] [40; 40] [2; 0])
    as [m|] eqn:Em; [|vm_compute in Em; discriminate].
  specialize (H m eq_refl). cbv zeta in H.
  destruct (daily_metrics_entries _ _ _ _ _ Em) as [Hdays _].
  assert (Hs : sorted_days [at_time 739000 10 0; at_time 739000 13 0]
               = [739000%Z]) by (vm_compute; reflexivity).
  rewrite Hs in Hdays.
  assert (Hc : (m' ← daily_metrics_and_alpha_with_rain
                       [at_time 739000 10 0; at_time 739000 13 0]
                       [65; 66] [40; 40] [2; 0];
                rain_map m' !! 739000%Z) = Some 2).
  { vm_compute. reflexivity. }
  rewrite Em in Hc. simpl in Hc. rewrite Hc, Hdays in H. simpl in H.
  destruct (H (or_introl eq_refl) eq_refl) as [[y Hin] _].
  apply in_band in Hin; [|exact I].
  apply in_plot_days in Hin as (d & Hd & Hfirst & _).
  destruct Hd as [<-|[]]. apply Hfirst. reflexivity.
Qed.

(** C7, as amended: for every day of the sequence other than its first day
    whose recorded precipitation is positive, the renderer draws the rain
    glyph and, next to it, the precipitation divided by 25.4 with two
    decimals followed by " in"; the favorability of the day plays no part. *)
Theorem rain_glyph_after_first
    (times : list datetime) (temps_f hums rain_mm : list Q) (m : metrics)
    (loc_name : string) (temp_ylim_max x_min x_max : Q) (show_xaxis : bool)
    (day : Z) (r : Q) :
  daily_metrics_and_alpha_with_rain times temps_f hums rain_mm = Some m ->
  In day (all_days m) ->
  first_day_of (all_days m) <> Some day ->
  rain_map m !! day = Some r ->
  0 < r ->
  shows_rain (plot_location_forecast times temps_f hums (alpha_map m)
                (day_metrics m) (rain_map m) (all_days m) loc_name
                temp_ylim_max x_min x_max show_xaxis) day (r / 25.4).
Proof.
  intros _ Hday Hfirst Hr Hpos.
  assert (Hin : 0 < r / 25.4).
  { apply Qlt_shift_div_l; [reflexivity | lra]. }
  apply Qlt_bool_iff in Hin.
  split; eexists; (apply in_band; [exact I|]); apply in_plot_days;
    exists day; (split; [exact Hday|]); (split; [congruence|]);
    unfold plot_day; rewrite !in_app_iff; right; right; right;
    rewrite Hr; simpl; rewrite Hin.
  - left. reflexivity.
  - right. left. reflexivity.
Qed.

Lemma rain_glyph_after_first_witness :
  exists m,
    daily_metrics_and_alpha_with_rain
      [at_time 739000 10 0; at_time 739001 10 0; at_time 739001 13 0]
      [60; 65; 66] [40; 40; 40] [0; 2; 0] = Some m
    /\ shows_rain (plot_location_forecast
                     [at_time 739000 10 0; at_time 739001 10 0; at_time 739001 13 0]
                     [60; 65; 66] [40; 40; 40] (alpha_map m)
                     (day_metrics m) (rain_map m) (all_days m) "Farley"
                     66 0 1 true) 739001 (2 / 25.4).
Proof.
  destruct (daily_metrics_and_alpha_with_rain
              [at_time 739000 10 0; at_time 739001 10 0; at_time 739001 13 0]
              [60; 65; 66] [40; 40; 40] [0; 2; 0])
    as [m|] eqn:Em; [|vm_compute in Em; discriminate].
  exists m. split; [reflexivity|].
  destruct (daily_metrics_entries _ _ _ _ _ Em) as [Hdays _].
  assert (Hs : sorted_days [at_time 739000 10 0; at_time 739001 10 0;
                            at_time 739001 13 0]
               = [739000%Z; 739001%Z]) by (vm_compute; reflexivity).
  rewrite Hs in Hdays.
  assert (Hc : (m' ← daily_metrics_and_alpha_with_rain
                       [at_time 739000 10 0; at_time 739001 10 0;
                        at_time 739001 13 0]
                       [60; 65; 66] [40; 40; 40] [0; 2; 0];
                rain_map m' !! 739001%Z) = Some 2).
  { vm_compute. reflexivity. }
  rewrite Em in Hc. simpl in Hc.
  refine (rain_glyph_after_first _ _ _ _ m "Farley" 66 0 1 true 739001%Z 2
            Em _ _ Hc _).
  - rewrite Hdays. right. left. reflexivity.
  - rewrite Hdays. vm_compute. discriminate.
  - reflexivity.
Defined.

(** ** Parsing *)

Lemma parse_entries_lacking (fromtimestamp : Z -> option datetime)
    (entries : list entry) (e : entry) :
  In e entries -> lacks_required e ->
  forall acc, parse_entries fromtimestamp entries acc = None.
Proof.
  intros Hin Hlack. induction entries as [|e0 rest IH]; [destruct Hin|].
  intros [[[times temps_c] hums] rain_mm]. simpl.
  destruct Hin as [->|Hin].
  - destruct Hlack as [Hdt|[Hmain|(main & Hmain & [Ht|Hh])]].
    + rewrite Hdt. reflexivity.
    + destruct (e_dt e); simpl; [|reflexivity].
      destruct (fromtimestamp z); simpl; [|reflexivity].
      rewrite Hmain. reflexivity.
    + destruct (e_dt e); simpl; [|reflexivity].
      destruct (fromtimestamp z); simpl; [|reflexivity].
      rewrite Hmain. simpl. rewrite Ht. reflexivity.
    + destruct (e_dt e); simpl; [|reflexivity].
      destruct (fromtimestamp z); simpl; [|reflexivity].
      rewrite Hmain. simpl. destruct (mb_temp main); simpl; [|reflexivity].
      rewrite Hh. reflexivity.
  - destruct (e_dt e0); simpl; [|reflexivity].
    destruct (fromtimestamp z); simpl; [|reflexivity].
    destruct (e_main e0) as [main|]; simpl; [|reflexivity].
    destruct (mb_temp main); simpl; [|reflexivity].
    destruct (mb_humidity main); simpl; [|reflexivity].
    apply IH. exact Hin.
Qed.

Lemma parse_entries_lengths (fromtimestamp : Z -> option datetime)
    (entries : list entry) :
  forall times temps_c hums rain_mm times' temps_c' hums' rain_mm',
    parse_entries fromtimestamp entries (times, temps_c, hums, rain_mm)
    = Some (times', temps_c', hums', rain_mm') ->
    length times' = (length times + length entries)%nat
    /\ length temps_c' = (length temps_c + length entries)%nat
    /\ length hums' = (length hums + length entries)%nat
    /\ rain_mm' = rain_mm ++ List.map rain_volume entries.
Proof.
  induction entries as [|e rest IH];
    intros times temps_c hums rain_mm times' temps_c' hums' rain_mm' Hp.
  - simpl in Hp. injection Hp as <- <- <- <-.
    rewrite !Nat.add_0_r, app_nil_r. auto.
  - simpl in Hp.
    destruct (e_dt e); simpl in Hp; [|discriminate].
    destruct (fromtimestamp z); simpl in Hp; [|discriminate].
    destruct (e_main e) as [main|]; simpl in Hp; [|discriminate].
    destruct (mb_temp main); simpl in Hp; [|discriminate].
    destruct (mb_humidity main); simpl in Hp; [|discriminate].
    apply IH in Hp as (H1 & H2 & H3 & H4).
    rewrite !length_app in *. simpl in *.
    rewrite <- app_assoc in H4. simpl in H4.
    repeat split; try lia. exact H4.
Qed.

Lemma parse_entries_readable (fromtimestamp : Z -> option datetime)
    (entries : list entry) :
  Forall (readable fromtimestamp) entries ->
  forall acc, is_Some (parse_entries fromtimestamp entries acc).
Proof.
  induction 1 as [|e rest (ts & dt & temp & hum & Hts & Hdt & Hmain) _ IH];
    intros [[[times temps_c] hums] rain_mm]; simpl.
  - eauto.
  - rewrite Hts. simpl. rewrite Hdt. simpl. rewrite Hmain. simpl. apply IH.
Qed.

Lemma parse_forecast_aligned (fromtimestamp : Z -> option datetime)
    (data : response) (times : list datetime) (temps_c hums rain_mm : list Q) :
  parse_forecast fromtimestamp data = Some (times, temps_c, hums, rain_mm) ->
  aligned times (c_to_f_list temps_c) hums rain_mm.
Proof.
  unfold parse_forecast. destruct (r_list data) as [entries|]; simpl; [|discriminate].
  intros Hp. apply parse_entries_lengths in Hp as (H1 & H2 & H3 & ->).
  unfold aligned, c_to_f_list. simpl in *.
  rewrite length_map, length_map. repeat split; lia.
Qed.

Lemma load_location_aligned (fetch : Q -> Q -> option response)
    (fromtimestamp : Z -> option datetime) (coords : Q * Q) :
  let '(times, temps_f, hums, rain_mm) := load_location fetch fromtimestamp coords in
  aligned times temps_f hums rain_mm.
Proof.
  unfold load_location.
  destruct (fetch coords.1 coords.2) as [data|]; simpl;
    [|repeat split; reflexivity].
  destruct (parse_forecast fromtimestamp data) as [[[[times temps_c] hums] rain_mm]|]
    eqn:Ep; simpl; [|repeat split; reflexivity].
  eapply parse_forecast_aligned. exact Ep.
Qed.

Lemma load_location_series_aligned (fetch : Q -> Q -> option response)
    (fromtimestamp : Z -> option datetime) (coords : Q * Q) :
  series_aligned (load_location fetch fromtimestamp coords).
Proof.
  pose proof (load_location_aligned fetch fromtimestamp coords) as H.
  destruct (load_location fetch fromtimestamp coords) as [[[times temps_f] hums] rain_mm].
  exact H.
Qed.

(** ** The dashboard *)

Section Dashboard.

Variable fetch : Q -> Q -> option response.
Variable fromtimestamp : Z -> option datetime.

Lemma gather_fold (locations : list (string * (Q * Q))) (g : gathered) :
  all_data (fold_left (gather_step fetch fromtimestamp) locations g)
  = all_data g
    ++ List.map (fun loc => (loc.1, location_series fetch fromtimestamp loc))
         locations
  /\ all_times (fold_left (gather_step fetch fromtimestamp) locations g)
     = all_times g ++ flat_map (location_times fetch fromtimestamp) locations.
Proof.
  revert g. induction locations as [|loc rest IH]; intros g; simpl.
  - rewrite !app_nil_r. auto.
  - destruct (IH (gather_step fetch fromtimestamp g loc)) as [Hd Ht].
    rewrite Hd, Ht.
    unfold gather_step, location_times, location_series, times_of.
    destruct (load_location fetch fromtimestamp loc.2)
      as [[[times temps_f] hums] rain_mm]; simpl.
    rewrite <- !app_assoc. auto.
Qed.

Lemma no_times_iff (locations : list (string * (Q * Q))) :
  flat_map (location_times fetch fromtimestamp) locations = []
  <-> forall loc, In loc locations -> location_times fetch fromtimestamp loc = [].
Proof.
  induction locations as [|loc rest IH]; simpl.
  - split; [intros _ loc [] | reflexivity].
  - split.
    + intros H. apply app_eq_nil in H as [H1 H2].
      intros loc' [<-|Hin]; [exact H1 | apply IH; assumption].
    + intros H. rewrite (H loc (or_introl eq_refl)). simpl.
      apply IH. intros loc' Hin. apply H. right. exact Hin.
Qed.

Lemma times_cases (locations : list (string * (Q * Q))) :
  (forall loc, In loc locations -> location_times fetch fromtimestamp loc = [])
  \/ (exists loc, In loc locations
                  /\ location_times fetch fromtimestamp loc <> []).
Proof.
  destruct (flat_map (location_times fetch fromtimestamp) locations)
    as [|t ts] eqn:Et.
  - left. apply no_times_iff. exact Et.
  - right.
    assert (Hin : In t (flat_map (location_times fetch fromtimestamp) locations)).
    { rewrite Et. left. reflexivity. }
    apply in_flat_map in Hin as (loc & Hloc & Ht).
    exists loc. split; [exact Hloc|]. intros E. rewrite E in Ht. exact Ht.
Qed.

Lemma draw_bands_total (n_axes : nat) (data : list (string * series))
    (temp_ylim_max x_min x_max : Q) :
  Forall (fun p => series_aligned p.2) data ->
  forall i,
  exists axes,
    draw_bands n_axes i data temp_ylim_max x_min x_max = Some axes
    /\ length axes = length data
    /\ forall k name s, data !! k = Some (name, s) -> times_of s = [] ->
                        axes !! k = Some [set_title name].
Proof.
  induction 1 as [|[name [[[times temps_f] hums] rain_mm]] rest Hal _ IH];
    intros i.
  - exists []. simpl. split; [reflexivity|]. split; [reflexivity|].
    intros k name s Hk. discriminate.
  - destruct (IH (S i)) as (bands & Hb & Hlen & Hempty).
    unfold series_aligned in Hal. simpl in Hal.
    assert (Hband : exists band,
               match times with
               | [] => Some [set_title name]
               | _ :: _ =>
                   m ← daily_metrics_and_alpha_with_rain times temps_f hums rain_mm;
                   Some (plot_location_forecast times temps_f hums
                           (alpha_map m) (day_metrics m) (rain_map m)
                           (all_days m) name temp_ylim_max x_min x_max
                           (i =? n_axes - 1)%nat)
               end = Some band
               /\ (times = [] -> band = [set_title name])).
    { destruct times as [|t times].
      - eexists. split; [reflexivity | reflexivity].
      - destruct (daily_metrics_total _ _ _ _ Hal) as [m ->]. simpl.
        eexists. split; [reflexivity | discriminate]. }
    destruct Hband as (band & Eband & Hband).
    exists (band :: bands). simpl. rewrite Eband. simpl. rewrite Hb. simpl.
    split; [reflexivity|]. split; [f_equal; exact Hlen|].
    intros [|k] name' s Hk Hs; simpl in *.
    + injection Hk as <- <-. f_equal. apply Hband. exact Hs.
    + eapply Hempty; eassumption.
Qed.

Lemma gathered_aligned (locations : list (string * (Q * Q))) :
  Forall (fun p : string * series => series_aligned p.2)
    (List.map (fun loc => (loc.1, location_series fetch fromtimestamp loc))
       locations).
Proof.
  apply Forall_forall. intros [name s] Hp.
  apply list_elem_of_In, in_map_iff in Hp as (loc & [= <- <-] & _).
  apply load_location_series_aligned.
Qed.

Lemma dashboard_for_spec (locations : list (string * (Q * Q))) :
  ((forall loc, In loc locations -> location_times fetch fromtimestamp loc = []) ->
   dashboard_for locations fetch fromtimestamp = Some NoFigure)
  /\ ((exists loc, In loc locations
                   /\ location_times fetch fromtimestamp loc <> []) ->
      exists axes,
        dashboard_for locations fetch fromtimestamp = Some (Figure axes)
        /\ length axes = length locations
        /\ forall k loc,
             locations !! k = Some loc ->
             location_times fetch fromtimestamp loc = [] ->
             axes !! k = Some [set_title loc.1]).
Proof.
  unfold dashboard_for.
  destruct (gather_fold locations (Gathered [] 0 [])) as [Hd Ht].
  simpl in Hd, Ht. rewrite Hd, Ht. split.
  - intros Hall. apply no_times_iff in Hall. rewrite Hall. reflexivity.
  - intros (loc & Hin & Hne).
    destruct (flat_map (location_times fetch fromtimestamp) locations)
      as [|t ts] eqn:Et.
    { exfalso. apply Hne. eapply no_times_iff; eassumption. }
    match goal with
    | |- context [draw_bands ?n ?j ?d ?y ?a ?b] =>
        destruct (draw_bands_total n d y a b (gathered_aligned locations) j)
          as (axes & Eaxes & Hlen & Hempty)
    end.
    exists axes. rewrite Eaxes. simpl. split; [reflexivity|].
    rewrite length_map in Hlen. split; [exact Hlen|].
    intros k loc' Hk Hs.
    apply (Hempty k loc'.1 (location_series fetch fromtimestamp loc'));
      [|exact Hs].
    change (List.map (fun loc0 => (loc0.1, location_series fetch fromtimestamp loc0))
              locations)
      with ((fun loc0 => (loc0.1, location_series fetch fromtimestamp loc0))
              <$> locations).
    rewrite list_lookup_fmap, Hk. reflexivity.
Qed.

End Dashboard.

(** ** The endpoint *)



(** With a provider that answers, the endpoint renders five bands. *)
Lemma dashboard_with_data :
  exists axes,
    index (Some "secret") (fun _ _ => Some two_entries) utc_fromtimestamp
    = Some (render_template "index.html" axes)
    /\ length axes = 5%nat.
Proof.
  destruct (dashboard_for_spec (fun _ _ => Some two_entries) utc_fromtimestamp
              LOCATIONS) as [_ Hsome].
  destruct Hsome as (axes & Hg & Hlen & _).
  - exists ("Farley", (42.5949, -72.3678)). split; [left; reflexivity|].
    vm_compute. discriminate.
  - exists axes. unfold index, generate_dashboard_plot. rewrite Hg.
    split; [reflexivity | exact Hlen].
Qed.

(** ** Unit conversion *)



(** ** Entries without a required field *)

(** C10: when one entry of a response lacks the timestamp, the temperature or
    the humidity, parsing the response fails, the location is left with four
    empty lists, and its band in a figure is the title alone; a response whose
    entries all carry the required fields parses to one sample per entry
    whatever their precipitation field is, with 0 where it is missing or holds
    neither accumulation. *)
Theorem missing_required_field_empties_location
    (fromtimestamp : Z -> option datetime) :
  (forall data entries e,
      r_list data = Some entries -> In e entries -> lacks_required e ->
      parse_forecast fromtimestamp data = None
      /\ (forall fetch coords,
             fetch coords.1 coords.2 = Some data ->
             load_location fetch fromtimestamp coords = ([], [], [], []))
      /\ (forall fetch k loc axes,
             LOCATIONS !! k = Some loc ->
             fetch loc.2.1 loc.2.2 = Some data ->
             generate_dashboard_plot fetch fromtimestamp = Some (Figure axes) ->
             axes !! k = Some [set_title loc.1]))
  /\ (forall entries,
         Forall (readable fromtimestamp) entries ->
         exists times temps_c hums,
           parse_forecast fromtimestamp (Response (Some entries))
           = Some (times, temps_c, hums, List.map rain_volume entries)
           /\ length times = length entries
           /\ length temps_c = length entries
           /\ length hums = length entries)
  /\ (forall e,
         e_rain e = None \/ e_rain e = Some RainOther
         \/ e_rain e = Some (RainDict None None) ->
         rain_volume e = 0).
Proof.
  split; [|split].
  - intros data entries e Hlist Hin Hlack.
    assert (Hparse : parse_forecast fromtimestamp data = None).
    { unfold parse_forecast. rewrite Hlist. simpl.
      eapply parse_entries_lacking; eassumption. }
    assert (Hload : forall fetch coords,
               fetch coords.1 coords.2 = Some data ->
               load_location fetch fromtimestamp coords = ([], [], [], [])).
    { intros fetch coords Hf. unfold load_location.
      rewrite Hf. simpl. rewrite Hparse. reflexivity. }
    split; [exact Hparse|]. split; [exact Hload|].
    intros fetch k loc axes Hk Hf Hg.
    destruct (dashboard_for_spec fetch fromtimestamp LOCATIONS) as [Hnone Hsome].
    fold generate_dashboard_plot in Hnone, Hsome.
    destruct (times_cases fetch fromtimestamp LOCATIONS) as [Hall|Hex].
    + rewrite (Hnone Hall) in Hg. discriminate.
    + destruct (Hsome Hex) as (axes' & Hg' & _ & Hempty).
      rewrite Hg in Hg'. injection Hg' as <-.
      apply Hempty; [exact Hk|].
      unfold location_times, location_series.
      rewrite (Hload fetch loc.2 Hf). reflexivity.
  - intros entries Hall. unfold parse_forecast. simpl.
    destruct (parse_entries_readable fromtimestamp entries Hall ([], [], [], []))
      as [[[[times temps_c] hums] rain_mm] Hp].
    pose proof (parse_entries_lengths _ _ _ _ _ _ _ _ _ _ Hp) as (H1 & H2 & H3 & H4).
    simpl in *. subst rain_mm. exists times, temps_c, hums. auto.
  - intros e [H|[H|H]]; unfold rain_volume; rewrite H; reflexivity.
Qed.

Lemma missing_required_field_empties_location_witness :
  parse_forecast utc_fromtimestamp broken_entries = None
  /\ load_location (fun _ _ => Some broken_entries) utc_fromtimestamp
       (42.5949, -72.3678) = ([], [], [], []).
Proof.
  destruct (proj1 (missing_required_field_empties_location utc_fromtimestamp)
              broken_entries
              [Entry (Some 1714039200%Z) (Some (MainBlock (Some 20) (Some 45)))
                 (Some (RainDict (Some 1.5) None));
               Entry (Some 1714050000%Z) (Some (MainBlock (Some 22) None)) None]
              (Entry (Some 1714050000%Z) (Some (MainBlock (Some 22) None)) None))
    as (Hparse & Hload & _).
  - reflexivity.
  - right. left. reflexivity.
  - right. right. eexists. split; [reflexivity|]. right. reflexivity.
  - split; [exact Hparse|].
    apply (Hload (fun _ _ => Some broken_entries) (42.5949, -72.3678)).
    reflexivity.
Defined.

(** The intact response parses to two samples, the second with 0 mm. *)
Lemma two_entries_parse :
  parse_forecast utc_fromtimestamp two_entries
  = Some ([at_time 739001 10 0; at_time 739001 13 0], [20; 22], [45; 40], [1.5; 0]).
Proof. reflexivity. Qed.

(** ** The listed points in binary64 *)

(** On doubles the conversion and the curves take the listed values without
    any rounding error. *)
Lemma listed_values_binary64 :
  (Binary64.c_to_f 0 = 32 /\ Binary64.c_to_f 100 = 212
   /\ Binary64.temp_score 32 = 0 /\ Binary64.temp_score 60 = 1
   /\ Binary64.temp_score 69 = 1 /\ Binary64.temp_score 80 = 0
   /\ Binary64.temp_score 50 = 0.5 /\ Binary64.temp_score 74.5 = 0.5
   /\ Binary64.hum_score 50 = 1 /\ Binary64.hum_score 80 = 0
   /\ Binary64.hum_score 65 = 0.5)%float.
Proof. repeat split; reflexivity. Qed.

(** * Further properties of the code *)

(** ** The shape of the two curves *)

Lemma temp_score_pieces (t : Q) :
  (t <= 40 /\ temp_score t == 0)
  \/ (40 < t /\ t < 60 /\ temp_score t == (t - 40) * (1 # 20))
  \/ (60 <= t /\ t <= 69 /\ temp_score t == 1)
  \/ (69 < t /\ t < 80 /\ temp_score t == (80 - t) * (1 # 11))
  \/ (80 <= t /\ temp_score t == 0).
Proof.
  unfold temp_score, temp_score_traced. q_cases.
  all: try solve [left; split; [lra | reflexivity]].
  all: try solve [do 4 right; split; [lra | reflexivity]].
  all: try solve [right; right; left; repeat split; try lra; reflexivity].
  all: try solve [right; left; repeat split; try lra; field].
  all: try solve [right; right; right; left; repeat split; try lra; field].
  all: try lra.
Qed.

Lemma hum_score_pieces (h : Q) :
  (h <= 50 /\ hum_score h == 1)
  \/ (50 < h /\ h < 80 /\ hum_score h == (80 - h) * (1 # 30))
  \/ (80 <= h /\ hum_score h == 0).
Proof.
  unfold hum_score. q_cases.
  - left. split; [lra | reflexivity].
  - right. right. split; [lra | reflexivity].
  - right. left. repeat split; first [lra | field].
Qed.

(** Case analysis on the piece a temperature or a humidity falls in. *)
Ltac temp_pieces t :=
  let H := fresh "Hlo" in let H' := fresh "Hhi" in let E := fresh "E" in
  destruct (temp_score_pieces t)
    as [[H E]|[(H & H' & E)|[(H & H' & E)|[(H & H' & E)|[H E]]]]].

Ltac hum_pieces h :=
  let H := fresh "Hlo" in let H' := fresh "Hhi" in let E := fresh "E" in
  destruct (hum_score_pieces h) as [[H E]|[(H & H' & E)|[H E]]].

Lemma alpha_of_positive (max_temp max_hum rain_amt : Q) :
  0 < alpha_of max_temp max_hum rain_amt
  <-> rain_amt <= 0 /\ 40 < max_temp /\ max_temp < 80 /\ max_hum < 80.
Proof.
  unfold alpha_of, min_alpha, max_alpha.
  destruct (Qlt_bool 0 rain_amt) eqn:Er; q_props.
  - split; [intros H; exfalso; revert H; apply Qlt_irrefl | intros [H _]; lra].
  - temp_pieces max_temp; hum_pieces max_hum; rewrite E, E0; split;
      try (intros H; repeat split; lra);
      try (intros (_ & H1 & H2 & H3); lra).
    + intros _.
      assert (0 < (max_temp - 40) * (80 - max_hum)) by (apply Qmult_lt_0_compat; lra).
      lra.
    + intros _.
      assert (0 < (80 - max_temp) * (80 - max_hum)) by (apply Qmult_lt_0_compat; lra).
      lra.
Qed.

(** X1: the favorability of a day is positive exactly when the day's rain is
    not positive, its max temperature lies strictly between 40 and 80 and its
    max humidity is below 80. *)
Theorem favorability_positive_iff (max_temp max_hum rain_amt : Q) :
  0 < alpha_of max_temp max_hum rain_amt
  <-> rain_amt <= 0 /\ 40 < max_temp /\ max_temp < 80 /\ max_hum < 80.
Proof. apply alpha_of_positive. Qed.

(** X2: the favorability reaches its maximum 0.8 exactly when the day's rain
    is not positive, its max temperature lies in [60, 69] and its max humidity
    is at most 50. *)
Theorem favorability_full_iff (max_temp max_hum rain_amt : Q) :
  alpha_of max_temp max_hum rain_amt == 0.8
  <-> rain_amt <= 0 /\ 60 <= max_temp /\ max_temp <= 69 /\ max_hum <= 50.
Proof.
  split.
  - intros Hfull.
    assert (Hdry : rain_amt <= 0).
    { destruct (Qlt_le_dec 0 rain_amt) as [Hr|Hr]; [|exact Hr].
      rewrite (alpha_of_rain max_temp max_hum rain_amt Hr) in Hfull. lra. }
    rewrite alpha_of_dry in Hfull by lra.
    destruct (temp_score_range max_temp) as [Ht0 Ht1].
    destruct (hum_score_range max_hum) as [Hh0 Hh1].
    assert (Hprod : temp_score max_temp * hum_score max_hum == 1) by lra.
    assert (Ht : temp_score max_temp == 1).
    { destruct (Qlt_le_dec (temp_score max_temp) 1) as [Hlt|Hge]; [|lra].
      assert (temp_score max_temp * hum_score max_hum
              <= temp_score max_temp * 1).
      { apply Qmult_le_compat_nonneg; split; lra. }
      lra. }
    assert (Hh : hum_score max_hum == 1).
    { rewrite Ht in Hprod. lra. }
    split; [exact Hdry|].
    temp_pieces max_temp; hum_pieces max_hum; rewrite ?E, ?E0 in *; lra.
  - intros (Hdry & H60 & H69 & H50).
    rewrite alpha_of_dry by lra.
    temp_pieces max_temp; hum_pieces max_hum; rewrite ?E, ?E0; lra.
Qed.

(** X3: neither curve jumps: the temperature score changes by at most 1/11
    per degree and the humidity score by at most 1/30 per percent, also
    across the breakpoints 40, 60, 69, 80 and 50, 80. *)
Theorem scores_have_no_jumps (a b : Q) :
  Qabs (temp_score b - temp_score a) <= Qabs (b - a) * (1 # 11)
  /\ Qabs (hum_score b - hum_score a) <= Qabs (b - a) * (1 # 30).
Proof.
  split.
  - temp_pieces a; temp_pieces b; rewrite E, E0;
      apply Qabs_Qle_condition;
      (destruct (Qlt_le_dec b a);
       [rewrite (Qabs_neg (b - a)) by lra | rewrite (Qabs_pos (b - a)) by lra]);
      split; lra.
  - hum_pieces a; hum_pieces b; rewrite E, E0;
      apply Qabs_Qle_condition;
      (destruct (Qlt_le_dec b a);
       [rewrite (Qabs_neg (b - a)) by lra | rewrite (Qabs_pos (b - a)) by lra]);
      split; lra.
Qed.

(** X4: lower humidity never lowers the favorability, and the temperature
    score rises up to the ideal band and falls after it. *)
Theorem drier_is_never_worse (max_temp rain_amt h1 h2 t1 t2 : Q) :
  (h1 <= h2 ->
   alpha_of max_temp h2 rain_amt <= alpha_of max_temp h1 rain_amt)
  /\ (t1 <= t2 -> t2 <= 69 -> temp_score t1 <= temp_score t2)
  /\ (60 <= t1 -> t1 <= t2 -> temp_score t2 <= temp_score t1).
Proof.
  split; [|split].
  - intros Hh. unfold alpha_of, min_alpha, max_alpha.
    destruct (Qlt_bool 0 rain_amt); [apply Qle_refl|].
    destruct (temp_score_range max_temp) as [Ht0 Ht1].
    assert (Hs : hum_score h2 <= hum_score h1).
    { hum_pieces h1; hum_pieces h2; rewrite E, E0; lra. }
    assert (temp_score max_temp * hum_score h2
            <= temp_score max_temp * hum_score h1).
    { rewrite !(Qmult_comm (temp_score max_temp)).
      apply Qmult_le_compat_r; assumption. }
    lra.
  - intros H12 H69. temp_pieces t1; temp_pieces t2; rewrite E, E0; lra.
  - intros H60 H12. temp_pieces t1; temp_pieces t2; rewrite E, E0; lra.
Qed.

Lemma drier_is_never_worse_witness :
  alpha_of 65 70 0 <= alpha_of 65 55 0.
Proof.
  refine (proj1 (drier_is_never_worse 65 0 55 70 0 0) _). discriminate.
Defined.

(** ** The day list and the keys of the dictionaries *)

Lemma strictly_sorted (l : list Z) :
  StronglySorted Z.le l -> NoDup l -> StronglySorted Z.lt l.
Proof.
  induction 1 as [|x l Hs IH Hle]; intros Hnd; constructor.
  - apply IH. apply NoDup_cons in Hnd as [_ Hnd]. exact Hnd.
  - apply NoDup_cons in Hnd as [Hx _].
    apply Forall_forall. intros y Hy.
    assert (x <= y)%Z by (eapply Forall_forall in Hle; eassumption).
    assert (x <> y) by (intros ->; contradiction).
    lia.
Qed.

Lemma min_of_sorted (d : Z) (ds : list Z) :
  Forall (Z.lt d) ds ->
  fold_left (fun m x => if (x <? m)%Z then x else m) ds d = d.
Proof.
  induction 1 as [|x ds Hx _ IH]; simpl; [reflexivity|].
  destruct (Z.ltb_spec x d); [lia | exact IH].
Qed.

Lemma last_of_cons (l : list Z) (z a b : Z) :
  List.last (z :: l) a = List.last (z :: l) b.
Proof.
  revert z. induction l as [|y l IH]; intros z; [reflexivity|].
  change (List.last (y :: l) a = List.last (y :: l) b). apply IH.
Qed.

Lemma max_of_sorted (ds : list Z) :
  StronglySorted Z.lt ds ->
  forall d, Forall (Z.le d) ds ->
  fold_left (fun m x => if (m <? x)%Z then x else m) ds d = List.last ds d.
Proof.
  induction 1 as [|x ds Hs IH Hx]; intros d Hd; simpl; [reflexivity|].
  apply Forall_cons in Hd as [Hdx _].
  assert (Hstep : (if (d <? x)%Z then x else d) = x).
  { destruct (Z.ltb_spec d x); lia. }
  rewrite Hstep, IH.
  - destruct ds as [|z ds]; [reflexivity|].
    change (List.last (z :: ds) x = List.last (z :: ds) d). apply last_of_cons.
  - eapply Forall_impl; [exact Hx|]. simpl. intros y Hy. lia.
Qed.

(** X5: the day list that the function returns is strictly increasing, holds
    exactly the dates of the timestamps, and its minimum and maximum, as the
    renderer computes them, are its first and last element. *)
Theorem all_days_strictly_increasing
    (times : list datetime) (temps_f hums rain_mm : list Q) (m : metrics) :
  daily_metrics_and_alpha_with_rain times temps_f hums rain_mm = Some m ->
  StronglySorted Z.lt (all_days m)
  /\ (forall day, In day (all_days m) <-> exists t, In t times /\ dt_date t = day)
  /\ first_day_of (all_days m) = head (all_days m)
  /\ (forall d ds, all_days m = d :: ds -> last_day_of d ds = List.last ds d).
Proof.
  intros Hm. destruct (daily_metrics_entries _ _ _ _ _ Hm) as [-> _].
  assert (Hs : StronglySorted Z.lt (sorted_days times)).
  { apply strictly_sorted; [apply sorted_days_sorted | apply sorted_days_NoDup]. }
  split; [exact Hs|]. split; [|split].
  - intros day. rewrite in_sorted_days. unfold day_sample. split.
    + intros (i & t & Hi & Hd). exists t. split; [|exact Hd].
      apply list_elem_of_In, list_elem_of_lookup. eauto.
    + intros (t & Hin & Hd).
      apply list_elem_of_In, list_elem_of_lookup in Hin as [i Hi]. eauto.
  - destruct (sorted_days times) as [|d ds]; [reflexivity|].
    simpl. f_equal. apply min_of_sorted.
    apply StronglySorted_inv in Hs as [_ Hd]. exact Hd.
  - intros d ds E. rewrite E in Hs. unfold last_day_of.
    apply StronglySorted_inv in Hs as [Hs Hd].
    apply max_of_sorted; [exact Hs|].
    eapply Forall_impl; [exact Hd|]. simpl. intros y Hy. lia.
Qed.

Lemma all_days_strictly_increasing_witness :
  exists m,
    daily_metrics_and_alpha_with_rain
      [at_time 739001 10 0; at_time 739000 13 0; at_time 739001 18 0]
      [68; 70; 72] [55; 50; 48] [0; 0; 0] = Some m
    /\ StronglySorted Z.lt (all_days m)
    /\ first_day_of (all_days m) = head (all_days m).
Proof.
  destruct (daily_metrics_and_alpha_with_rain
              [at_time 739001 10 0; at_time 739000 13 0; at_time 739001 18 0]
              [68; 70; 72] [55; 50; 48] [0; 0; 0]) as [m|] eqn:Em;
    [|vm_compute in Em; discriminate].
  exists m. split; [reflexivity|].
  destruct (all_days_strictly_increasing _ _ _ _ m Em) as (Hs & _ & Hf & _).
  split; [exact Hs | exact Hf].
Defined.

(** X6: each of the three dictionaries that the function returns has exactly
    the listed days as its keys. *)
Theorem dictionaries_cover_all_days
    (times : list datetime) (temps_f hums rain_mm : list Q) (m : metrics) :
  daily_metrics_and_alpha_with_rain times temps_f hums rain_mm = Some m ->
  dom (alpha_map m) = list_to_set (all_days m)
  /\ dom (day_metrics m) = list_to_set (all_days m)
  /\ dom (rain_map m) = list_to_set (all_days m).
Proof.
  intros Hm. destruct (daily_metrics_entries _ _ _ _ _ Hm) as [_ Hent].
  assert (Hkeys : forall day,
             (In day (all_days m) ->
              is_Some (alpha_map m !! day) /\ is_Some (day_metrics m !! day)
              /\ is_Some (rain_map m !! day))
             /\ (~ In day (all_days m) ->
                 alpha_map m !! day = None /\ day_metrics m !! day = None
                 /\ rain_map m !! day = None)).
  { intros day. destruct (Hent day) as [Hin Hout]. split; [|exact Hout].
    intros Hday.
    destruct (Hin Hday) as (mt & mh & r & _ & _ & Hd & Hr & Ha). eauto. }
  repeat split; apply set_eq; intros day;
    rewrite elem_of_dom, elem_of_list_to_set, list_elem_of_In;
    destruct (Hkeys day) as [Hin Hout];
    (split;
     [intros Hsome; destruct (in_dec Z.eq_dec day (all_days m)) as [|Hn];
        [assumption|];
        destruct (Hout Hn) as (Ha & Hd & Hr);
        rewrite ?Ha, ?Hd, ?Hr in Hsome; destruct Hsome; discriminate
     | intros Hday; destruct (Hin Hday) as (Ha & Hd & Hr); assumption]).
Qed.

Lemma dictionaries_cover_all_days_witness :
  exists m,
    daily_metrics_and_alpha_with_rain
      [at_time 739001 10 0; at_time 739000 13 0; at_time 739001 18 0]
      [68; 70; 72] [55; 50; 48] [0; 0; 0] = Some m
    /\ dom (alpha_map m) = list_to_set (all_days m).
Proof.
  destruct (daily_metrics_and_alpha_with_rain
              [at_time 739001 10 0; at_time 739000 13 0; at_time 739001 18 0]
              [68; 70; 72] [55; 50; 48] [0; 0; 0]) as [m|] eqn:Em;
    [|vm_compute in Em; discriminate].
  exists m. split; [reflexivity|].
  exact (proj1 (dictionaries_cover_all_days _ _ _ _ m Em)).
Defined.

(** ** When the aggregation raises *)

Lemma max_at_None (vals : list Q) (idxs : list nat) :
  max_at vals idxs = None <-> exists i, In i idxs /\ (length vals <= i)%nat.
Proof.
  split.
  - intros Hnone.
    destruct (Forall_Exists_dec (fun i : nat => (i < length vals)%nat)
                (fun i : nat => (length vals <= i)%nat)
                (fun i => match le_lt_dec (length vals) i with
                          | left H => right H
                          | right H => left H
                          end) idxs) as [Hall|Hex].
    + exfalso. destruct idxs as [|i idxs]; [discriminate|].
      destruct (max_at_spec vals (i :: idxs)) as (m & Hm & _);
        [discriminate | | congruence].
      intros j Hj. eapply Forall_forall in Hall; [exact Hall|].
      apply list_elem_of_In. exact Hj.
    + apply Exists_exists in Hex as (i & Hi & Hge).
      exists i. split; [apply list_elem_of_In; exact Hi | lia].
  - intros (i & Hi & Hge). destruct idxs as [|j idxs]; [destruct Hi|].
    unfold max_at.
    destruct (mapM (fun i : nat => vals !! i) (j :: idxs)) as [picked|] eqn:Ep;
      [|reflexivity].
    exfalso. apply mapM_Some in Ep.
    apply list_elem_of_In, list_elem_of_lookup in Hi as [k Hk].
    destruct (Forall2_lookup_l _ _ _ _ _ Ep Hk) as (y & _ & Hy).
    apply lookup_lt_Some in Hy. lia.
Qed.

Lemma picked_nil_iff (times : list datetime) (temps_f hums rain_mm : list Q)
    (day : Z) :
  List.filter (picks day) (zip4 times temps_f hums rain_mm) = []
  <-> unbucketed times temps_f hums rain_mm day.
Proof.
  unfold unbucketed. split.
  - intros Hnil i Hw.
    destruct (le_lt_dec (length temps_f) i) as [|H1]; [auto|].
    destruct (le_lt_dec (length hums) i) as [|H2]; [auto|].
    destruct (le_lt_dec (length rain_mm) i) as [|H3]; [auto|].
    exfalso. pose proof Hw as (t & Ht & _).
    destruct (lookup_lt_is_Some_2 temps_f i H1) as [tf Htf].
    destruct (lookup_lt_is_Some_2 hums i H2) as [h Hh].
    destruct (lookup_lt_is_Some_2 rain_mm i H3) as [r Hr].
    assert (Hin : In (t, tf, h, r)
                    (List.filter (picks day) (zip4 times temps_f hums rain_mm))).
    { apply in_picked. exists i. auto. }
    rewrite Hnil in Hin. exact Hin.
  - intros Hun.
    destruct (List.filter (picks day) (zip4 times temps_f hums rain_mm))
      as [|s rest] eqn:E; [reflexivity|].
    exfalso.
    assert (Hin : In s (List.filter (picks day) (zip4 times temps_f hums rain_mm))).
    { rewrite E. left. reflexivity. }
    apply in_picked in Hin as (i & Hw & Htf & Hh & Hr & _).
    apply lookup_lt_Some in Htf, Hh, Hr.
    destruct (Hun i Hw) as [?|[?|?]]; lia.
Qed.

Lemma day_stats_None (times : list datetime) (temps_f hums rain_mm : list Q)
    (day : Z) :
  day_stats times temps_f hums (fill_buckets times temps_f hums rain_mm) day = None
  <-> unbucketed times temps_f hums rain_mm day
      /\ exists i, day_sample times day i
                   /\ (length temps_f <= i \/ length hums <= i)%nat.
Proof.
  rewrite <- picked_nil_iff. unfold day_stats, fill_buckets.
  rewrite bucket_temps, bucket_humidity. simpl. rewrite !lookup_empty. simpl.
  destruct (List.filter (picks day) (zip4 times temps_f hums rain_mm))
    as [|s rest]; simpl.
  - split.
    + intros Hnone. split; [reflexivity|].
      destruct (max_at temps_f (day_indices times day)) as [mt|] eqn:Et.
      * destruct (max_at hums (day_indices times day)) as [mh|] eqn:Eh;
          [discriminate|].
        apply max_at_None in Eh as (i & Hi & Hge).
        exists i. split; [apply day_indices_spec; exact Hi | auto].
      * apply max_at_None in Et as (i & Hi & Hge).
        exists i. split; [apply day_indices_spec; exact Hi | auto].
    + intros (_ & i & Hi & [Hge|Hge]).
      * assert (E : max_at temps_f (day_indices times day) = None).
        { apply max_at_None. exists i. split; [apply day_indices_spec|]; assumption. }
        rewrite E. reflexivity.
      * assert (E : max_at hums (day_indices times day) = None).
        { apply max_at_None. exists i. split; [apply day_indices_spec|]; assumption. }
        rewrite E. destruct (max_at temps_f (day_indices times day)); reflexivity.
  - split; [discriminate | intros [H _]; discriminate].
Qed.

Lemma day_loop_None (times : list datetime) (temps_f hums : list Q) (b : buckets)
    (days : list Z) :
  forall am dm rm,
    day_loop times temps_f hums b days am dm rm = None
    <-> exists day, In day days /\ day_stats times temps_f hums b day = None.
Proof.
  induction days as [|d rest IH]; intros am dm rm; simpl.
  - split; [discriminate | intros (day & [] & _)].
  - destruct (day_stats times temps_f hums b d) as [st|] eqn:Est; simpl.
    + rewrite IH. split.
      * intros (day & Hin & Hnone). exists day. auto.
      * intros (day & [<-|Hin] & Hnone); [congruence|]. exists day. auto.
    + split; [|reflexivity]. intros _. exists d. auto.
Qed.

(** X7: the function raises (an [IndexError]) exactly when some day of the
    timestamps has no sample in [09:00, 16:00) within reach of the [zip] and
    one of the day's samples has no temperature or no humidity at its index;
    in every other case it returns. *)
Theorem raises_index_error_iff
    (times : list datetime) (temps_f hums rain_mm : list Q) :
  daily_metrics_and_alpha_with_rain times temps_f hums rain_mm = None
  <-> exists day,
        unbucketed times temps_f hums rain_mm day
        /\ exists i, day_sample times day i
                     /\ (length temps_f <= i \/ length hums <= i)%nat.
Proof.
  unfold daily_metrics_and_alpha_with_rain.
  destruct (day_loop times temps_f hums
              (fill_buckets times temps_f hums rain_mm) (sorted_days times) ∅ ∅ ∅)
    as [r|] eqn:Eloop; simpl.
  - split; [discriminate|]. intros (day & Hun & i & Hi & Hge). exfalso.
    assert (Hnone : day_loop times temps_f hums
                      (fill_buckets times temps_f hums rain_mm)
                      (sorted_days times) ∅ ∅ ∅ = None).
    { apply day_loop_None. exists day. split.
      - apply in_sorted_days. eauto.
      - apply day_stats_None. eauto. }
    congruence.
  - split; [|reflexivity]. intros _.
    apply day_loop_None in Eloop as (day & _ & Hnone).
    apply day_stats_None in Hnone. eauto.
Qed.

Lemma raises_index_error_iff_witness :
  daily_metrics_and_alpha_with_rain
    [at_time 739000 10 0; at_time 739001 18 0] [68] [55; 50] [0; 0] = None.
Proof.
  apply raises_index_error_iff. exists 739001%Z. split.
  - intros i (t & Ht & Hd & _ & Hw).
    destruct i as [|[|i]]; simpl in Ht; try discriminate;
      injection Ht as <-; simpl in Hd, Hw; [lia | discriminate].
  - exists 1%nat. split; [|left; simpl; lia].
    exists (at_time 739001 18 0). split; reflexivity.
Defined.

(** ** What a band contains *)

Lemma day_offset_inj (k : Q) (d d' : Z) :
  date2num d + k = date2num d' + k -> d = d'.
Proof.
  destruct k as [kn kd]. unfold date2num, inject_Z, Qplus. simpl.
  intros [= H]. nia.
Qed.

Lemma digits_of_head (n : Z) (tail : string) :
  digits_of n +:+ tail <> "TBD, H: TBD".
Proof.
  unfold digits_of, NilZero.string_of_uint.
  destruct (N.to_uint (Z.to_N n)); simpl; discriminate.
Qed.

Lemma complete_label_not_tbd (times : list datetime) (dm : gmap Z (Q * Q))
    (day : Z) :
  has_post_noon_data times day = true -> label_text times dm day <> tbd_label.
Proof.
  intros Hnoon. unfold label_text, tbd_label. rewrite Hnoon. simpl.
  destruct (default (0, 0) (dm !! day)) as [max_temp max_hum].
  destruct (Qlt_bool max_temp 0); simpl; intros [= H];
    revert H; apply digits_of_head.
Qed.

(** The calls of one iteration of the day loop. *)
Lemma plot_day_calls (times : list datetime) (am : gmap Z Q) (dm : gmap Z (Q * Q))
    (rm : gmap Z Q) (ymin ymax : Q) (d : Z) (c : draw) :
  In c (plot_day times am dm rm ymin ymax d) ->
  c = axvline (date2num d)
  \/ (0 < shown_alpha times am d
      /\ c = axvspan (date2num d) (date2num d + 1) (shown_alpha times am d))
  \/ (exists y col, c = text (date2num d + 0.5) y (strftime_a d) "center" col 10)
  \/ (exists y col,
        c = text (date2num d + 0.5) y (label_text times dm d) "center" col 8)
  \/ (0 < default 0.0 (rm !! d) / 25.4
      /\ ((exists y, c = text (date2num d + 0.48) y umbrella_icon "right" "navy" 20)
          \/ (exists y,
                c = text (date2num d + 0.52) y
                      (format_f 2 (default 0.0 (rm !! d) / 25.4) +:+ " in")
                      "left" "navy" 10))).
Proof.
  unfold plot_day. rewrite !in_app_iff. intros [H|[H|[H|H]]].
  - destruct H as [<-|[]]. left. reflexivity.
  - destruct (Qlt_bool 0 (shown_alpha times am d)) eqn:E; [|destruct H].
    destruct H as [<-|[]]. right. left. split; [|reflexivity].
    apply Qlt_bool_iff. exact E.
  - destruct H as [<-|[<-|[]]].
    + right. right. left. eauto.
    + right. right. right. left. eauto.
  - destruct (Qlt_bool 0 (default 0.0 (rm !! d) / 25.4)) eqn:E; [|destruct H].
    do 4 right. split; [apply Qlt_bool_iff; exact E|].
    destruct H as [<-|[<-|[]]]; [left | right]; eauto.
Qed.

(** X8: a band shades a day exactly when the day is listed, is not the first
    day and the favorability the renderer uses for it is positive; every
    shading spans one day, from its midnight to the next, with that
    favorability as its opacity. *)
Theorem shading_iff (times : list datetime) (temps_f hums : list Q)
    (am : gmap Z Q) (dm : gmap Z (Q * Q)) (rm : gmap Z Q) (days : list Z)
    (loc_name : string) (temp_ylim_max x_min x_max : Q) (show_xaxis : bool) :
  (forall day,
      shaded (plot_location_forecast times temps_f hums am dm rm days loc_name
                temp_ylim_max x_min x_max show_xaxis) day
      <-> In day days /\ first_day_of days <> Some day
          /\ 0 < shown_alpha times am day)
  /\ (forall x0 x1 a,
         In (axvspan x0 x1 a)
           (plot_location_forecast times temps_f hums am dm rm days loc_name
              temp_ylim_max x_min x_max show_xaxis) ->
         exists day, x0 = date2num day /\ x1 = date2num day + 1
                     /\ a = shown_alpha times am day).
Proof.
  split.
  - intros day. unfold shaded. split.
    + intros (x1 & a & Hin). apply in_band in Hin; [|exact I].
      apply in_plot_days in Hin as (d & Hd & Hfirst & Hin).
      apply plot_day_calls in Hin
        as [H|[[Hpos H]|[(y & col & H)|[(y & col & H)|[_ [[y H]|[y H]]]]]]];
        try discriminate.
      injection H as H0 _ _. assert (d = day) as -> by lia.
      repeat split; [assumption | congruence | assumption].
    + intros (Hday & Hfirst & Hpos).
      eexists _, _. apply in_band; [exact I|]. apply in_plot_days.
      exists day. split; [exact Hday|]. split; [congruence|].
      unfold plot_day. rewrite !in_app_iff. right. left.
      apply Qlt_bool_iff in Hpos. rewrite Hpos. left. reflexivity.
  - intros x0 x1 a Hin. apply in_band in Hin; [|exact I].
    apply in_plot_days in Hin as (d & _ & _ & Hin).
    apply plot_day_calls in Hin
      as [H|[[Hpos H]|[(y & col & H)|[(y & col & H)|[_ [[y H]|[y H]]]]]]];
      try discriminate.
    injection H as -> -> ->. exists d. auto.
Qed.

Lemma shading_iff_witness :
  shaded (plot_location_forecast [at_time 739001 13 0] [65] [40]
            {[739001%Z := 0.8]} ∅ ∅ [739000%Z; 739001%Z] "Farley" 65 0 1 true)
    739001.
Proof.
  apply (proj1 (shading_iff [at_time 739001 13 0] [65] [40]
                  {[739001%Z := 0.8]} ∅ ∅ [739000%Z; 739001%Z] "Farley"
                  65 0 1 true)).
  split; [right; left; reflexivity|]. split; [discriminate | reflexivity].
Defined.

(** X9: a band prints a stats line for a day only if the day is listed and is
    not the first day, and the line is the one of line 173; that line is
    "T: TBD, H: TBD" exactly when the day has no sample at or after noon, so
    a day with such a sample never shows it. *)
Theorem stats_line_tbd_iff (times : list datetime) (temps_f hums : list Q)
    (am : gmap Z Q) (dm : gmap Z (Q * Q)) (rm : gmap Z Q) (days : list Z)
    (loc_name : string) (temp_ylim_max x_min x_max : Q) (show_xaxis : bool)
    (day : Z) :
  (forall s,
      shows_stats (plot_location_forecast times temps_f hums am dm rm days
                     loc_name temp_ylim_max x_min x_max show_xaxis) day s ->
      In day days /\ first_day_of days <> Some day
      /\ s = label_text times dm day)
  /\ (label_text times dm day = tbd_label
      <-> has_post_noon_data times day = false)
  /\ (has_post_noon_data times day = true ->
      ~ shows_stats (plot_location_forecast times temps_f hums am dm rm days
                       loc_name temp_ylim_max x_min x_max show_xaxis)
          day tbd_label).
Proof.
  assert (Hline : forall s,
             shows_stats (plot_location_forecast times temps_f hums am dm rm days
                            loc_name temp_ylim_max x_min x_max show_xaxis) day s ->
             In day days /\ first_day_of days <> Some day
             /\ s = label_text times dm day).
  { intros s (y & col & Hin). apply in_band in Hin; [|exact I].
    apply in_plot_days in Hin as (d & Hd & Hfirst & Hin).
    apply plot_day_calls in Hin
      as [H|[[Hpos H]|[(y' & col' & H)|[(y' & col' & H)|[_ [[y' H]|[y' H]]]]]]];
      try discriminate.
    injection H as Hx _ Hs _.
    assert (d = day) as -> by lia.
    repeat split; [assumption | congruence | assumption]. }
  assert (Htbd : label_text times dm day = tbd_label
                 <-> has_post_noon_data times day = false).
  { split.
    - intros E. destruct (has_post_noon_data times day) eqn:En; [|reflexivity].
      exfalso. revert E. apply complete_label_not_tbd. exact En.
    - apply incomplete_label. }
  split; [exact Hline|]. split; [exact Htbd|].
  intros Hnoon Hshown. apply Hline in Hshown as (_ & _ & E).
  symmetry in E. apply Htbd in E. congruence.
Qed.

Lemma stats_line_tbd_iff_witness :
  ~ shows_stats (plot_location_forecast [at_time 739001 13 0] [65] [40]
                   ∅ ∅ ∅ [739000%Z; 739001%Z] "Farley" 65 0 1 true)
      739001 tbd_label.
Proof.
  refine (proj2 (proj2 (stats_line_tbd_iff [at_time 739001 13 0] [65] [40]
                          ∅ ∅ ∅ [739000%Z; 739001%Z] "Farley" 65 0 1 true
                          739001)) _).
  reflexivity.
Defined.

(** X10: a band draws the rain glyph for a day exactly when the day is listed,
    is not the first day and its recorded precipitation is positive; a dry
    day never gets one. *)
Theorem rain_glyph_iff (times : list datetime) (temps_f hums : list Q)
    (am : gmap Z Q) (dm : gmap Z (Q * Q)) (rm : gmap Z Q) (days : list Z)
    (loc_name : string) (temp_ylim_max x_min x_max : Q) (show_xaxis : bool)
    (day : Z) :
  (exists y,
      In (text (date2num day + 0.48) y umbrella_icon "right" "navy" 20)
        (plot_location_forecast times temps_f hums am dm rm days loc_name
           temp_ylim_max x_min x_max show_xaxis))
  <-> In day days /\ first_day_of days <> Some day
      /\ 0 < default 0.0 (rm !! day).
Proof.
  split.
  - intros (y & Hin). apply in_band in Hin; [|exact I].
    apply in_plot_days in Hin as (d & Hd & Hfirst & Hin).
    apply plot_day_calls in Hin
      as [H|[[Hpos H]|[(y' & col' & H)|[(y' & col' & H)|[Hpos [[y' H]|[y' H]]]]]]];
      try discriminate.
    injection H as Hx _.
    assert (d = day) as -> by lia.
    repeat split; [assumption | congruence |].
    revert Hpos. generalize (default 0.0 (rm !! day)). intros r Hpos.
    assert (Er : r == r / 25.4 * 25.4) by field.
    rewrite Er. apply Qmult_lt_0_compat; [exact Hpos | reflexivity].
  - intros (Hday & Hfirst & Hpos).
    assert (Hin : 0 < default 0.0 (rm !! day) / 25.4).
    { apply Qlt_shift_div_l; [reflexivity | lra]. }
    apply Qlt_bool_iff in Hin.
    eexists. apply in_band; [exact I|]. apply in_plot_days.
    exists day. split; [exact Hday|]. split; [congruence|].
    unfold plot_day. rewrite !in_app_iff. right. right. right.
    rewrite Hin. left. reflexivity.
Qed.

Lemma rain_glyph_iff_witness :
  exists y,
    In (text (date2num 739001 + 0.48) y umbrella_icon "right" "navy" 20)
      (plot_location_forecast [at_time 739001 13 0] [65] [40]
         ∅ ∅ {[739001%Z := 2]} [739000%Z; 739001%Z] "Farley" 65 0 1 true).
Proof.
  apply (proj2 (rain_glyph_iff [at_time 739001 13 0] [65] [40]
                  ∅ ∅ {[739001%Z := 2]} [739000%Z; 739001%Z] "Farley"
                  65 0 1 true 739001)).
  split; [right; left; reflexivity|]. split; [discriminate|].
  vm_compute. reflexivity.
Defined.

(** X11: the separators of a band are the midnights of the listed days other
    than the first, and one more a day after the midnight of the latest day. *)
Theorem separators_iff (times : list datetime) (temps_f hums : list Q)
    (am : gmap Z Q) (dm : gmap Z (Q * Q)) (rm : gmap Z Q) (days : list Z)
    (loc_name : string) (temp_ylim_max x_min x_max : Q) (show_xaxis : bool)
    (x : Q) :
  In (axvline x)
    (plot_location_forecast times temps_f hums am dm rm days loc_name
       temp_ylim_max x_min x_max show_xaxis)
  <-> (exists day, In day days /\ first_day_of days <> Some day
                   /\ x = date2num day)
      \/ (exists d ds, days = d :: ds /\ x = date2num (last_day_of d ds) + 1).
Proof.
  unfold plot_location_forecast. rewrite !in_app_iff. split.
  - intros [H|[H|[H|H]]].
    + simpl in H. repeat (destruct H as [H|H]; try discriminate). destruct H.
    + left. apply in_plot_days in H as (d & Hd & Hfirst & Hin).
      apply plot_day_calls in Hin
        as [H|[[Hpos H]|[(y' & col' & H)|[(y' & col' & H)|[_ [[y' H]|[y' H]]]]]]];
        try discriminate.
      injection H as ->. exists d. repeat split; [assumption | congruence].
    + right. destruct days as [|d ds]; [destruct H|].
      destruct H as [[= <-]|[]]. eauto.
    + simpl in H. repeat (destruct H as [H|H]; try discriminate). destruct H.
  - intros [(day & Hday & Hfirst & ->)|(d & ds & -> & ->)].
    + right. left. apply in_plot_days. exists day.
      split; [exact Hday|]. split; [congruence|].
      unfold plot_day. rewrite !in_app_iff. left. left. reflexivity.
    + right. right. left. left. reflexivity.
Qed.

Lemma separators_iff_witness :
  In (axvline (date2num 739001 + 1))
    (plot_location_forecast [at_time 739001 13 0] [65] [40]
       ∅ ∅ ∅ [739000%Z; 739001%Z] "Farley" 65 0 1 true).
Proof.
  apply (proj2 (separators_iff [at_time 739001 13 0] [65] [40]
                  ∅ ∅ ∅ [739000%Z; 739001%Z] "Farley" 65 0 1 true
                  (date2num 739001 + 1))).
  right. exists 739000%Z, [739001%Z]. split; reflexivity.
Defined.

(** ** Shading in the figure of a location *)

(** X12: in the band drawn from the function's own dictionaries, every
    shading belongs to a listed day other than the first that has a sample at
    or after noon, no positive rain, a max temperature strictly between 40 and
    80 and a max humidity below 80; its opacity is 0.8 times the product of
    the two scores and lies in (0, 0.8].  A rainy day is never shaded. *)
Theorem shading_only_dry_complete
    (times : list datetime) (temps_f hums rain_mm : list Q) (m : metrics)
    (loc_name : string) (temp_ylim_max x_min x_max : Q) (show_xaxis : bool)
    (x0 x1 a : Q) :
  daily_metrics_and_alpha_with_rain times temps_f hums rain_mm = Some m ->
  In (axvspan x0 x1 a)
    (plot_location_forecast times temps_f hums (alpha_map m) (day_metrics m)
       (rain_map m) (all_days m) loc_name temp_ylim_max x_min x_max show_xaxis) ->
  exists day max_temp max_hum rain_amt,
    x0 = date2num day /\ x1 = date2num day + 1
    /\ In day (all_days m) /\ first_day_of (all_days m) <> Some day
    /\ has_post_noon_data times day = true
    /\ rain_map m !! day = Some rain_amt /\ rain_amt <= 0
    /\ day_metrics m !! day = Some (max_temp, max_hum)
    /\ 40 < max_temp /\ max_temp < 80 /\ max_hum < 80
    /\ 0 < a /\ a <= 0.8
    /\ a == 0.8 * (temp_score max_temp * hum_score max_hum).
Proof.
  intros Hm Hin. apply in_band in Hin; [|exact I].
  apply in_plot_days in Hin as (day & Hday & Hfirst & Hin).
  apply plot_day_calls in Hin
    as [H|[[Hpos H]|[(y & col & H)|[(y & col & H)|[_ [[y H]|[y H]]]]]]];
    try discriminate.
  injection H as -> -> ->.
  destruct (daily_metrics_entries _ _ _ _ _ Hm) as [_ Hent].
  destruct (proj1 (Hent day) Hday) as (mt & mh & r & _ & _ & Hdm & Hrm & Ham).
  unfold shown_alpha in *. rewrite Ham in *.
  destruct (has_post_noon_data times day) eqn:Hnoon; simpl in *.
  2:{ exfalso. revert Hpos. apply Qlt_irrefl. }
  pose proof (proj1 (alpha_of_positive mt mh r) Hpos) as (Hdry & H40 & H80 & Hh).
  exists day, mt, mh, r. repeat split; try assumption; try congruence.
  - apply alpha_of_range.
  - apply alpha_of_dry. lra.
Qed.

Lemma shading_only_dry_complete_witness :
  exists m day max_temp max_hum,
    daily_metrics_and_alpha_with_rain
      [at_time 739000 10 0; at_time 739001 10 0; at_time 739001 13 0]
      [60; 65; 66] [40; 40; 40] [0; 0; 0] = Some m
    /\ date2num 739001 = date2num day
    /\ has_post_noon_data
         [at_time 739000 10 0; at_time 739001 10 0; at_time 739001 13 0] day
       = true
    /\ day_metrics m !! day = Some (max_temp, max_hum)
    /\ 40 < max_temp /\ max_temp < 80 /\ max_hum < 80.
Proof.
  destruct (daily_metrics_and_alpha_with_rain
              [at_time 739000 10 0; at_time 739001 10 0; at_time 739001 13 0]
              [60; 65; 66] [40; 40; 40] [0; 0; 0])
    as [m|] eqn:Em; [|vm_compute in Em; discriminate].
  destruct (daily_metrics_entries _ _ _ _ _ Em) as [Hdays _].
  assert (Hs : sorted_days [at_time 739000 10 0; at_time 739001 10 0;
                            at_time 739001 13 0]
               = [739000%Z; 739001%Z]) by (vm_compute; reflexivity).
  rewrite Hs in Hdays.
  assert (Hc : (m' ← daily_metrics_and_alpha_with_rain
                       [at_time 739000 10 0; at_time 739001 10 0;
                        at_time 739001 13 0]
                       [60; 65; 66] [40; 40; 40] [0; 0; 0];
                Some (Qlt_bool 0
                        (shown_alpha
                           [at_time 739000 10 0; at_time 739001 10 0;
                            at_time 739001 13 0] (alpha_map m') 739001)))
               = Some true).
  { vm_compute. reflexivity. }
  rewrite Em in Hc. simpl in Hc. injection Hc as Hc.
  destruct (shading_only_dry_complete
              [at_time 739000 10 0; at_time 739001 10 0; at_time 739001 13 0]
              [60; 65; 66] [40; 40; 40] [0; 0; 0] m "Farley" 66 0 1 true
              (date2num 739001) (date2num 739001 + 1)
              (shown_alpha
                 [at_time 739000 10 0; at_time 739001 10 0; at_time 739001 13 0]
                 (alpha_map m) 739001) Em)
    as (day & mt & mh & r & Hx & _ & _ & _ & Hnoon & _ & _ & Hdm & H40 & H80
        & Hh & _).
  - apply in_band; [exact I|]. apply in_plot_days. exists 739001%Z.
    rewrite Hdays. split; [right; left; reflexivity|].
    split; [vm_compute; discriminate|].
    unfold plot_day. rewrite !in_app_iff. right. left.
    rewrite Hc. left. reflexivity.
  - exists m, day, mt, mh. auto 10.
Defined.

(** ** The endpoint never fails *)


(** ** The bands of a figure *)

Lemma draw_bands_lookup (n_axes : nat) (data : list (string * series))
    (temp_ylim_max x_min x_max : Q) :
  forall i axes,
    draw_bands n_axes i data temp_ylim_max x_min x_max = Some axes ->
    length axes = length data
    /\ forall k name times temps_f hums rain_mm,
         data !! k = Some (name, (times, temps_f, hums, rain_mm)) ->
         (times = [] /\ axes !! k = Some [set_title name])
         \/ (times <> []
             /\ exists m,
                  daily_metrics_and_alpha_with_rain times temps_f hums rain_mm
                  = Some m
                  /\ axes !! k
                     = Some (plot_location_forecast times temps_f hums
                               (alpha_map m) (day_metrics m) (rain_map m)
                               (all_days m) name temp_ylim_max x_min x_max
                               (i + k =? n_axes - 1)%nat)).
Proof.
  induction data as [|[name0 [[[times0 temps0] hums0] rain0]] rest IH];
    intros i axes Hdraw.
  - simpl in Hdraw. injection Hdraw as <-. split; [reflexivity|].
    intros k name times temps_f hums rain_mm Hk. discriminate.
  - simpl in Hdraw.
    destruct (draw_bands n_axes (S i) rest temp_ylim_max x_min x_max)
      as [bands|] eqn:Erest.
    2:{ destruct times0; [discriminate|].
        destruct (daily_metrics_and_alpha_with_rain _ _ _ _); discriminate. }
    destruct (IH _ _ Erest) as [Hlen Hrest].
    assert (Hhead : exists band,
               axes = band :: bands
               /\ ((times0 = [] /\ band = [set_title name0])
                   \/ (times0 <> []
                       /\ exists m,
                            daily_metrics_and_alpha_with_rain
                              times0 temps0 hums0 rain0 = Some m
                            /\ band
                               = plot_location_forecast times0 temps0 hums0
                                   (alpha_map m) (day_metrics m) (rain_map m)
                                   (all_days m) name0 temp_ylim_max x_min x_max
                                   (i =? n_axes - 1)%nat))).
    { destruct times0 as [|t0 times0].
      - simpl in Hdraw. injection Hdraw as <-. eexists. split; [reflexivity|].
        left. auto.
      - destruct (daily_metrics_and_alpha_with_rain (t0 :: times0) temps0 hums0
                    rain0) as [m|] eqn:Em; simpl in Hdraw; [|discriminate].
        injection Hdraw as <-. eexists. split; [reflexivity|].
        right. split; [discriminate|]. exists m. auto. }
    destruct Hhead as (band & -> & Hband). split; [simpl; f_equal; exact Hlen|].
    intros [|k] name times temps_f hums rain_mm Hk; simpl in Hk.
    + injection Hk as <- <- <- <- <-. rewrite Nat.add_0_r. simpl.
      destruct Hband as [[-> ->]|(Hne & m & Hm & ->)]; [left; auto|].
      right. split; [exact Hne|]. exists m. auto.
    + replace (i + S k)%nat with (S i + k)%nat by lia.
      apply (Hrest k name times temps_f hums rain_mm Hk).
Qed.

Lemma gather_max (fetch : Q -> Q -> option response)
    (fromtimestamp : Z -> option datetime)
    (locations : list (string * (Q * Q))) :
  forall g,
    max_temp_global g
    <= max_temp_global (fold_left (gather_step fetch fromtimestamp) locations g)
    /\ forall loc tf,
         In loc locations ->
         In tf (location_series fetch fromtimestamp loc).1.1.2 ->
         tf <= max_temp_global
                 (fold_left (gather_step fetch fromtimestamp) locations g).
Proof.
  induction locations as [|loc0 rest IH]; intros g; simpl.
  - split; [apply Qle_refl | intros loc tf []].
  - destruct (IH (gather_step fetch fromtimestamp g loc0)) as [Hmono Hall].
    assert (Hstep : max_temp_global g
                    <= max_temp_global (gather_step fetch fromtimestamp g loc0)
                    /\ forall tf,
                         In tf (location_series fetch fromtimestamp loc0).1.1.2 ->
                         tf <= max_temp_global
                                 (gather_step fetch fromtimestamp g loc0)).
    { unfold gather_step, location_series.
      destruct (load_location fetch fromtimestamp loc0.2)
        as [[[times temps_f] hums] rain_mm]; simpl.
      destruct temps_f as [|x xs]; [split; [apply Qle_refl | intros tf []]|].
      destruct (py_max_spec x xs) as [_ Hub].
      destruct (Qlt_bool (max_temp_global g) (py_max x xs)) eqn:E; q_props.
      - split; [lra|]. intros tf Htf. apply Hub. exact Htf.
      - split; [apply Qle_refl|]. intros tf Htf.
        apply Hub in Htf. lra. }
    destruct Hstep as [Hs1 Hs2]. split; [lra|].
    intros loc tf [<-|Hin] Htf.
    + apply Hs2 in Htf. lra.
    + apply (Hall loc tf Hin Htf).
Qed.

(** What a returned figure is made of. *)
Lemma dashboard_for_figure (fetch : Q -> Q -> option response)
    (fromtimestamp : Z -> option datetime)
    (locations : list (string * (Q * Q))) (axes : list (list draw)) :
  dashboard_for locations fetch fromtimestamp = Some (Figure axes) ->
  exists t ts,
    flat_map (location_times fetch fromtimestamp) locations = t :: ts
    /\ draw_bands (length locations) 0
         (List.map (fun loc => (loc.1, location_series fetch fromtimestamp loc))
            locations)
         (max_temp_global
            (fold_left (gather_step fetch fromtimestamp) locations
               (Gathered [] 0 [])))
         (datetime2num (min_datetime t ts) - 6 / 24)
         (datetime2num (max_datetime t ts) + 1) = Some axes.
Proof.
  unfold dashboard_for.
  destruct (gather_fold fetch fromtimestamp locations (Gathered [] 0 []))
    as [Hd Ht].
  simpl in Hd, Ht. rewrite Hd, Ht.
  destruct (flat_map (location_times fetch fromtimestamp) locations)
    as [|t ts]; [discriminate|].
  intros Hfig. exists t, ts. split; [reflexivity|].
  match goal with
  | H : context [draw_bands ?n ?i ?d ?y ?a ?b] |- _ =>
      destruct (draw_bands n i d y a b) as [axes'|]; [|discriminate]
  end.
  simpl in Hfig. congruence.
Qed.

(** X14: in a returned figure there is one band per configured location, in
    the configured order; the band of a location without samples is its
    title alone, and the band of any other location is drawn from that
    location's own series and dictionaries, with limits shared by all bands
    and tick labels on the bottom band only. *)
Theorem bands_follow_locations
    (fetch : Q -> Q -> option response) (fromtimestamp : Z -> option datetime)
    (axes : list (list draw)) :
  generate_dashboard_plot fetch fromtimestamp = Some (Figure axes) ->
  exists temp_ylim_max x_min x_max,
    length axes = length LOCATIONS
    /\ forall k loc times temps_f hums rain_mm,
         LOCATIONS !! k = Some loc ->
         load_location fetch fromtimestamp loc.2
         = (times, temps_f, hums, rain_mm) ->
         (times = [] /\ axes !! k = Some [set_title loc.1])
         \/ (times <> []
             /\ exists m,
                  daily_metrics_and_alpha_with_rain times temps_f hums rain_mm
                  = Some m
                  /\ axes !! k
                     = Some (plot_location_forecast times temps_f hums
                               (alpha_map m) (day_metrics m) (rain_map m)
                               (all_days m) loc.1 temp_ylim_max x_min x_max
                               (k =? 4)%nat)).
Proof.
  intros Hfig. apply dashboard_for_figure in Hfig as (t & ts & _ & Hdraw).
  apply draw_bands_lookup in Hdraw as [Hlen Hbands].
  eexists _, _, _. split; [rewrite Hlen; apply length_map|].
  intros k loc times temps_f hums rain_mm Hk Hload.
  apply (Hbands k loc.1 times temps_f hums rain_mm).
  change (List.map (fun loc0 => (loc0.1, location_series fetch fromtimestamp loc0))
            LOCATIONS)
    with ((fun loc0 => (loc0.1, location_series fetch fromtimestamp loc0))
            <$> LOCATIONS).
  rewrite list_lookup_fmap, Hk. simpl. unfold location_series.
  rewrite Hload. reflexivity.
Qed.

Lemma bands_follow_locations_witness :
  exists axes,
    generate_dashboard_plot (fun _ _ => Some two_entries) utc_fromtimestamp
    = Some (Figure axes)
    /\ length axes = 5%nat.
Proof.
  destruct (dashboard_for_spec (fun _ _ => Some two_entries) utc_fromtimestamp
              LOCATIONS) as [_ Hsome].
  destruct Hsome as (axes & Hg & _).
  - exists ("Farley", (42.5949, -72.3678)). split; [left; reflexivity|].
    vm_compute. discriminate.
  - exists axes. split; [exact Hg|].
    destruct (bands_follow_locations _ _ axes Hg) as (y & a & b & Hlen & _).
    exact Hlen.
Defined.

(** X15: the upper bound shared by the temperature axes is never negative and
    is at least every temperature of every location, so with its 5 percent
    headroom no plotted temperature lies above the axis; every band with
    samples sets the axis to it. *)
Theorem temperature_axis_covers_all
    (fetch : Q -> Q -> option response) (fromtimestamp : Z -> option datetime)
    (axes : list (list draw)) :
  generate_dashboard_plot fetch fromtimestamp = Some (Figure axes) ->
  exists top,
    0 <= top
    /\ (forall loc times temps_f hums rain_mm tf,
           In loc LOCATIONS ->
           load_location fetch fromtimestamp loc.2
           = (times, temps_f, hums, rain_mm) ->
           In tf temps_f -> tf <= top /\ tf <= top + top * 0.05)
    /\ (forall k loc band,
           LOCATIONS !! k = Some loc -> axes !! k = Some band ->
           (load_location fetch fromtimestamp loc.2).1.1.1 <> [] ->
           In (set_ylim 0 (top + top * 0.05)) band).
Proof.
  intros Hfig. apply dashboard_for_figure in Hfig as (t & ts & _ & Hdraw).
  destruct (gather_max fetch fromtimestamp LOCATIONS (Gathered [] 0 []))
    as [Hnonneg Hmax].
  change (max_temp_global (Gathered [] 0 [])) with 0 in Hnonneg.
  set (top := max_temp_global
                (fold_left (gather_step fetch fromtimestamp) LOCATIONS
                   (Gathered [] 0 []))) in *.
  exists top. split; [exact Hnonneg|]. split.
  - intros loc times temps_f hums rain_mm tf Hloc Hload Htf.
    assert (Hle : tf <= top).
    { apply (Hmax loc tf Hloc). unfold location_series. rewrite Hload. exact Htf. }
    split; [exact Hle|].
    assert (0 <= top * 0.05)
      by (apply Qmult_le_0_compat; [exact Hnonneg | discriminate]).
    lra.
  - intros k loc band Hk Hband Hne.
    apply draw_bands_lookup in Hdraw as [_ Hbands].
    destruct (load_location fetch fromtimestamp loc.2)
      as [[[times temps_f] hums] rain_mm] eqn:Hload.
    destruct (Hbands k loc.1 times temps_f hums rain_mm)
      as [[-> _]|(_ & m & _ & Hk')].
    + change (List.map (fun loc0 => (loc0.1, location_series fetch fromtimestamp loc0))
                LOCATIONS)
        with ((fun loc0 => (loc0.1, location_series fetch fromtimestamp loc0))
                <$> LOCATIONS).
      rewrite list_lookup_fmap, Hk. simpl. unfold location_series.
      rewrite Hload. reflexivity.
    + exfalso. apply Hne. reflexivity.
    + rewrite Hband in Hk'. injection Hk' as ->.
      unfold plot_location_forecast. right. left. reflexivity.
Qed.

Lemma temperature_axis_covers_all_witness :
  exists axes top,
    generate_dashboard_plot (fun _ _ => Some two_entries) utc_fromtimestamp
    = Some (Figure axes)
    /\ 0 <= top.
Proof.
  destruct (dashboard_for_spec (fun _ _ => Some two_entries) utc_fromtimestamp
              LOCATIONS) as [_ Hsome].
  destruct Hsome as (axes & Hg & _).
  - exists ("Farley", (42.5949, -72.3678)). split; [left; reflexivity|].
    vm_compute. discriminate.
  - destruct (temperature_axis_covers_all _ _ axes Hg) as (top & Htop & _).
    exists axes, top. split; [exact Hg | exact Htop].
Defined.

(** ** What the parser keeps *)

Lemma parse_entries_decompose (fromtimestamp : Z -> option datetime)
    (entries : list entry) :
  forall times temps_c hums rain_mm times' temps_c' hums' rain_mm',
    parse_entries fromtimestamp entries (times, temps_c, hums, rain_mm)
    = Some (times', temps_c', hums', rain_mm') ->
    exists samples : list (datetime * Q * Q),
      times' = times ++ ((fun s : datetime * Q * Q => s.1.1) <$> samples)
      /\ temps_c' = temps_c ++ ((fun s : datetime * Q * Q => s.1.2) <$> samples)
      /\ hums' = hums ++ ((fun s : datetime * Q * Q => s.2) <$> samples)
      /\ rain_mm' = rain_mm ++ (rain_volume <$> entries)
      /\ Forall2 (fun e s =>
                    exists ts, e_dt e = Some ts /\ fromtimestamp ts = Some s.1.1
                               /\ e_main e = Some (MainBlock (Some s.1.2) (Some s.2)))
           entries samples.
Proof.
  induction entries as [|e rest IH];
    intros times temps_c hums rain_mm times' temps_c' hums' rain_mm' Hp.
  - simpl in Hp. injection Hp as <- <- <- <-. exists [].
    simpl. rewrite !app_nil_r. repeat split. constructor.
  - simpl in Hp.
    destruct (e_dt e) as [ts|] eqn:Ets; simpl in Hp; [|discriminate].
    destruct (fromtimestamp ts) as [dt|] eqn:Edt; simpl in Hp; [|discriminate].
    destruct (e_main e) as [[temp0 hum0]|] eqn:Emain; simpl in Hp; [|discriminate].
    destruct temp0 as [temp|]; simpl in Hp; [|discriminate].
    destruct hum0 as [hum|]; simpl in Hp; [|discriminate].
    apply IH in Hp as (samples & -> & -> & -> & -> & HF).
    exists ((dt, temp, hum) :: samples). simpl.
    rewrite <- !app_assoc. repeat split.
    constructor; [|exact HF]. exists ts. auto.
Qed.

(** X16: a response that parses gives one sample per entry in the order of
    the entries: sample [i] carries the converted timestamp, the temperature
    and the humidity of entry [i], and as precipitation its 3-hour volume if
    it has one, else its 1-hour volume, else 0. *)
Theorem parse_forecast_samples (fromtimestamp : Z -> option datetime)
    (data : response) (times : list datetime) (temps_c hums rain_mm : list Q) :
  parse_forecast fromtimestamp data = Some (times, temps_c, hums, rain_mm) ->
  exists entries,
    r_list data = Some entries
    /\ length times = length entries
    /\ forall i e,
         entries !! i = Some e ->
         exists ts dt temp hum,
           e_dt e = Some ts /\ fromtimestamp ts = Some dt
           /\ e_main e = Some (MainBlock (Some temp) (Some hum))
           /\ times !! i = Some dt /\ temps_c !! i = Some temp
           /\ hums !! i = Some hum
           /\ rain_mm !! i
              = Some match e_rain e with
                     | Some (RainDict (Some three_h) _) => three_h
                     | Some (RainDict None (Some one_h)) => one_h
                     | _ => 0
                     end.
Proof.
  unfold parse_forecast.
  destruct (r_list data) as [entries|]; simpl; [|discriminate].
  intros Hp. exists entries. split; [reflexivity|].
  apply parse_entries_decompose in Hp as (samples & -> & -> & -> & -> & HF).
  simpl. split.
  - rewrite length_fmap. symmetry. eapply Forall2_length. exact HF.
  - intros i e Hi.
    destruct (Forall2_lookup_l _ _ _ _ _ HF Hi)
      as ([[dt temp] hum] & Hs & ts & Hts & Hdt & Hmain).
    exists ts, dt, temp, hum. rewrite !list_lookup_fmap, Hs, Hi. simpl.
    assert (Hrain : rain_volume e
                    = match e_rain e with
                      | Some (RainDict (Some three_h) _) => three_h
                      | Some (RainDict None (Some one_h)) => one_h
                      | _ => 0
                      end).
    { unfold rain_volume.
      destruct (e_rain e) as [[[three|] [one|]|]|]; reflexivity. }
    rewrite <- Hrain. auto 10.
Qed.

Lemma parse_forecast_samples_witness :
  exists entries,
    r_list two_entries = Some entries /\ length entries = 2%nat.
Proof.
  destruct (parse_forecast_samples utc_fromtimestamp two_entries
              [at_time 739001 10 0; at_time 739001 13 0] [20; 22] [45; 40]
              [1.5; 0] eq_refl) as (entries & Hlist & Hlen & _).
  exists entries. split; [exact Hlist | symmetry; exact Hlen].
Defined.

(** X17: parsing succeeds exactly when the response has its list and every
    entry has a timestamp the clock accepts, a temperature and a humidity. *)
Theorem parse_forecast_succeeds_iff (fromtimestamp : Z -> option datetime)
    (data : response) :
  is_Some (parse_forecast fromtimestamp data)
  <-> exists entries,
        r_list data = Some entries /\ Forall (readable fromtimestamp) entries.
Proof.
  split.
  - intros [[[[times temps_c] hums] rain_mm] Hp]. unfold parse_forecast in Hp.
    destruct (r_list data) as [entries|]; simpl in Hp; [|discriminate].
    exists entries. split; [reflexivity|].
    apply parse_entries_decompose in Hp as (samples & _ & _ & _ & _ & HF).
    apply Forall_lookup. intros i e Hi.
    destruct (Forall2_lookup_l _ _ _ _ _ HF Hi)
      as ([[dt temp] hum] & _ & ts & Hts & Hdt & Hmain).
    exists ts, dt, temp, hum. auto.
  - intros (entries & Hlist & Hall). unfold parse_forecast.
    rewrite Hlist. simpl. apply parse_entries_readable. exact Hall.
Qed.

Lemma parse_forecast_succeeds_iff_witness :
  is_Some (parse_forecast utc_fromtimestamp two_entries).
Proof.
  apply (proj2 (parse_forecast_succeeds_iff utc_fromtimestamp two_entries)).
  eexists. split; [reflexivity|].
  repeat constructor; eexists _, _, _, _; repeat split; reflexivity.
Defined.



(** ** Time tests *)

(** X19: a day counts as complete exactly when one of its samples has an hour
    of at least 12, whatever its minutes and seconds, and the hour test of the
    first loop selects exactly the times of day from 09:00 up to, but not
    including, 16:00. *)
Theorem time_tests_by_hour :
  (forall times day,
      has_post_noon_data times day = true
      <-> exists i t, times !! i = Some t /\ dt_date t = day
                      /\ (12 <= hour (dt_time t))%nat)
  /\ (forall t,
         in_window t = true
         <-> time_geb (dt_time t) (Time 9 0 0 0) = true
             /\ time_geb (dt_time t) (Time 16 0 0 0) = false).
Proof. split; [exact has_post_noon_data_spec | exact in_window_spec]. Qed.

(** ** Conversion keeps the order *)



(** ** The shared time axis *)

Lemma datetime2num_micros (t : datetime) :
  datetime2num t == inject_Z (micros t) / 86400000000.
Proof.
  unfold datetime2num, date2num, micros.
  rewrite inject_Z_plus, inject_Z_mult, inject_Z_plus, inject_Z_mult.
  change (inject_Z 86400) with 86400. change (inject_Z 1000000) with 1000000.
  field.
Qed.

Lemma datetime2num_lt (a b : datetime) :
  datetime2num a < datetime2num b <-> (micros a < micros b)%Z.
Proof.
  rewrite !datetime2num_micros. rewrite Zlt_Qlt. split.
  - intros H.
    apply Qmult_lt_r with (z := / 86400000000); [reflexivity | exact H].
  - intros H.
    apply Qmult_lt_r with (z := / 86400000000) in H; [exact H | reflexivity].
Qed.

Lemma datetime_ltb_micros (a b : datetime) :
  valid_time (dt_time a) -> valid_time (dt_time b) ->
  datetime_ltb a b = true <-> (micros a < micros b)%Z.
Proof.
  destruct a as [da [ha ma sa ua]], b as [db [hb mb sb ub]].
  unfold valid_time, datetime_ltb, time_geb, micros. simpl.
  intros (Hha & Hma & Hsa & Hua) (Hhb & Hmb & Hsb & Hub).
  destruct (Z.ltb_spec da db); simpl.
  { split; [intros _; nia | reflexivity]. }
  destruct (Z.eqb_spec da db); simpl.
  2:{ split; [discriminate | intros; exfalso; nia]. }
  subst db.
  destruct (Nat.ltb_spec hb ha); simpl.
  { split; [discriminate | intros; exfalso; lia]. }
  destruct (Nat.eqb_spec ha hb); simpl.
  2:{ split; [intros _; lia | reflexivity]. }
  subst hb.
  destruct (Nat.ltb_spec mb ma); simpl.
  { split; [discriminate | intros; exfalso; lia]. }
  destruct (Nat.eqb_spec ma mb); simpl.
  2:{ split; [intros _; lia | reflexivity]. }
  subst mb.
  destruct (Nat.ltb_spec sb sa); simpl.
  { split; [discriminate | intros; exfalso; lia]. }
  destruct (Nat.eqb_spec sa sb); simpl.
  2:{ split; [intros _; lia | reflexivity]. }
  subst sb.
  destruct (Nat.leb_spec ub ua); simpl.
  - split; [discriminate | intros; exfalso; lia].
  - split; [intros _; lia | reflexivity].
Qed.

Lemma min_datetime_spec (ts : list datetime) :
  forall t,
    Forall (fun x => valid_time (dt_time x)) (t :: ts) ->
    forall x, In x (t :: ts) -> (micros (min_datetime t ts) <= micros x)%Z.
Proof.
  unfold min_datetime.
  induction ts as [|y ts IH]; intros t Hv x Hx; simpl.
  - destruct Hx as [->|[]]. lia.
  - apply Forall_cons in Hv as [Hvt Hv]. apply Forall_cons in Hv as [Hvy Hv].
    pose proof (datetime_ltb_micros y t Hvy Hvt) as Hlt.
    destruct (datetime_ltb y t) eqn:E.
    + assert (micros y < micros t)%Z by (apply Hlt; reflexivity).
      destruct Hx as [->|[->|Hx]].
      * assert (micros (fold_left
                          (fun m x => if datetime_ltb x m then x else m) ts y)
                <= micros y)%Z
          by (apply IH; [constructor; assumption | left; reflexivity]).
        lia.
      * apply IH; [constructor; assumption | left; reflexivity].
      * apply IH; [constructor; assumption | right; exact Hx].
    + assert (~ (micros y < micros t)%Z).
      { intros H. apply Hlt in H. congruence. }
      destruct Hx as [->|[->|Hx]].
      * apply IH; [constructor; assumption | left; reflexivity].
      * assert (micros (fold_left
                          (fun m x => if datetime_ltb x m then x else m) ts t)
                <= micros t)%Z
          by (apply IH; [constructor; assumption | left; reflexivity]).
        lia.
      * apply IH; [constructor; assumption | right; exact Hx].
Qed.

Lemma max_datetime_spec (ts : list datetime) :
  forall t,
    Forall (fun x => valid_time (dt_time x)) (t :: ts) ->
    forall x, In x (t :: ts) -> (micros x <= micros (max_datetime t ts))%Z.
Proof.
  unfold max_datetime.
  induction ts as [|y ts IH]; intros t Hv x Hx; simpl.
  - destruct Hx as [->|[]]. lia.
  - apply Forall_cons in Hv as [Hvt Hv]. apply Forall_cons in Hv as [Hvy Hv].
    pose proof (datetime_ltb_micros t y Hvt Hvy) as Hlt.
    destruct (datetime_ltb t y) eqn:E.
    + assert (micros t < micros y)%Z by (apply Hlt; reflexivity).
      destruct Hx as [->|[->|Hx]].
      * assert (micros y
                <= micros (fold_left
                             (fun m x => if datetime_ltb m x then x else m) ts y))%Z
          by (apply IH; [constructor; assumption | left; reflexivity]).
        lia.
      * apply IH; [constructor; assumption | left; reflexivity].
      * apply IH; [constructor; assumption | right; exact Hx].
    + assert (~ (micros t < micros y)%Z).
      { intros H. apply Hlt in H. congruence. }
      destruct Hx as [->|[->|Hx]].
      * apply IH; [constructor; assumption | left; reflexivity].
      * assert (micros t
                <= micros (fold_left
                             (fun m x => if datetime_ltb m x then x else m) ts t))%Z
          by (apply IH; [constructor; assumption | left; reflexivity]).
        lia.
      * apply IH; [constructor; assumption | right; exact Hx].
Qed.

Lemma location_times_valid (fetch : Q -> Q -> option response)
    (fromtimestamp : Z -> option datetime) (loc : string * (Q * Q)) :
  (forall ts dt, fromtimestamp ts = Some dt -> valid_time (dt_time dt)) ->
  Forall (fun x => valid_time (dt_time x))
    (location_times fetch fromtimestamp loc).
Proof.
  intros Hclock. unfold location_times, location_series, times_of, load_location.
  destruct (fetch loc.2.1 loc.2.2) as [data|]; simpl; [|constructor].
  destruct (parse_forecast fromtimestamp data)
    as [[[[times temps_c] hums] rain_mm]|] eqn:Ep; simpl; [|constructor].
  unfold parse_forecast in Ep.
  destruct (r_list data) as [entries|]; simpl in Ep; [|discriminate].
  apply parse_entries_decompose in Ep as (samples & -> & _ & _ & _ & HF).
  simpl. apply Forall_fmap, Forall_lookup. intros i s Hs.
  destruct (Forall2_lookup_r _ _ _ _ _ HF Hs) as (e & _ & ts & _ & Hdt & _).
  simpl. eapply Hclock. exact Hdt.
Qed.

Lemma utc_clock_valid (ts : Z) (dt : datetime) :
  utc_fromtimestamp ts = Some dt -> valid_time (dt_time dt).
Proof.
  unfold utc_fromtimestamp. intros [= <-]. unfold valid_time. simpl.
  pose proof (Z.mod_pos_bound ts 86400 eq_refl) as Hs.
  set (secs := (ts mod 86400)%Z) in *.
  repeat split.
  - apply Nat2Z.inj_lt. rewrite Z2Nat.id by (apply Z.div_pos; lia).
    apply Z.div_lt_upper_bound; lia.
  - apply Nat2Z.inj_lt. pose proof (Z.mod_pos_bound secs 3600 eq_refl).
    rewrite Z2Nat.id by (apply Z.div_pos; lia).
    apply Z.div_lt_upper_bound; lia.
  - apply Nat2Z.inj_lt. pose proof (Z.mod_pos_bound secs 60 eq_refl).
    rewrite Z2Nat.id by lia. lia.
Qed.

(** X21: when the clock yields times of day with their fields in range, every
    sample of every location lies strictly inside the shared time axis, which
    starts 6 hours before the earliest sample and ends a day after the latest;
    every band with samples is set to that axis. *)
Theorem time_axis_encloses_samples
    (fetch : Q -> Q -> option response) (fromtimestamp : Z -> option datetime)
    (axes : list (list draw)) :
  (forall ts dt, fromtimestamp ts = Some dt -> valid_time (dt_time dt)) ->
  generate_dashboard_plot fetch fromtimestamp = Some (Figure axes) ->
  exists earliest latest,
    (forall loc t,
        In loc LOCATIONS ->
        In t (load_location fetch fromtimestamp loc.2).1.1.1 ->
        datetime2num earliest - 6 / 24 < datetime2num t
        /\ datetime2num t < datetime2num latest + 1)
    /\ (exists loc loc', In loc LOCATIONS /\ In loc' LOCATIONS
          /\ In earliest (load_location fetch fromtimestamp loc.2).1.1.1
          /\ In latest (load_location fetch fromtimestamp loc'.2).1.1.1)
    /\ (forall k loc band,
           LOCATIONS !! k = Some loc -> axes !! k = Some band ->
           (load_location fetch fromtimestamp loc.2).1.1.1 <> [] ->
           In (set_xlim (datetime2num earliest - 6 / 24)
                 (datetime2num latest + 1)) band).
Proof.
  intros Hclock Hfig.
  apply dashboard_for_figure in Hfig as (t & ts & Eflat & Hdraw).
  assert (Hvalid : Forall (fun x => valid_time (dt_time x)) (t :: ts)).
  { rewrite <- Eflat. apply Forall_forall. intros x Hx.
    apply list_elem_of_In, in_flat_map in Hx as (loc & _ & Hx).
    pose proof (location_times_valid fetch fromtimestamp loc Hclock) as Hv.
    eapply Forall_forall in Hv; [exact Hv | apply list_elem_of_In; exact Hx]. }
  assert (Hmember : forall loc x,
             In loc LOCATIONS ->
             In x (load_location fetch fromtimestamp loc.2).1.1.1 ->
             In x (t :: ts)).
  { intros loc x Hloc Hx. rewrite <- Eflat. apply in_flat_map.
    exists loc. split; [exact Hloc | exact Hx]. }
  exists (min_datetime t ts), (max_datetime t ts). split; [|split].
  - intros loc x Hloc Hx. pose proof (Hmember loc x Hloc Hx) as Hin.
    pose proof (min_datetime_spec ts t Hvalid x Hin) as Hmin.
    pose proof (max_datetime_spec ts t Hvalid x Hin) as Hmax.
    assert (Hlo : datetime2num (min_datetime t ts) <= datetime2num x).
    { apply Qnot_lt_le. intros H. apply datetime2num_lt in H. lia. }
    assert (Hhi : datetime2num x <= datetime2num (max_datetime t ts)).
    { apply Qnot_lt_le. intros H. apply datetime2num_lt in H. lia. }
    assert (H6 : 6 / 24 == 1 # 4) by reflexivity.
    rewrite H6. split; lra.
  - assert (Hfold : forall (step : datetime -> datetime -> datetime) l a,
               (forall m x, step m x = m \/ step m x = x) ->
               In (fold_left step l a) (a :: l)).
    { intros step l. induction l as [|y l IH]; intros a Hstep; simpl.
      - left. reflexivity.
      - destruct (IH (step a y) Hstep) as [H|H]; [|right; right; exact H].
        rewrite <- H. destruct (Hstep a y) as [E|E]; rewrite E; simpl; auto. }
    assert (Hmin : In (min_datetime t ts) (t :: ts)).
    { apply Hfold. intros m x. destruct (datetime_ltb x m); auto. }
    assert (Hmax : In (max_datetime t ts) (t :: ts)).
    { apply Hfold. intros m x. destruct (datetime_ltb m x); auto. }
    rewrite <- Eflat in Hmin, Hmax.
    apply in_flat_map in Hmin as (loc & Hloc & Hmin).
    apply in_flat_map in Hmax as (loc' & Hloc' & Hmax).
    exists loc, loc'. auto.
  - intros k loc band Hk Hband Hne.
    apply draw_bands_lookup in Hdraw as [_ Hbands].
    destruct (load_location fetch fromtimestamp loc.2)
      as [[[times temps_f] hums] rain_mm] eqn:Hload.
    destruct (Hbands k loc.1 times temps_f hums rain_mm)
      as [[-> _]|(_ & m & _ & Hk')].
    + change (List.map (fun loc0 => (loc0.1, location_series fetch fromtimestamp loc0))
                LOCATIONS)
        with ((fun loc0 => (loc0.1, location_series fetch fromtimestamp loc0))
                <$> LOCATIONS).
      rewrite list_lookup_fmap, Hk. simpl. unfold location_series.
      rewrite Hload. reflexivity.
    + exfalso. apply Hne. reflexivity.
    + rewrite Hband in Hk'. injection Hk' as ->.
      unfold plot_location_forecast. do 3 right. left. reflexivity.
Qed.

Lemma time_axis_encloses_samples_witness :
  exists axes earliest latest,
    generate_dashboard_plot (fun _ _ => Some two_entries) utc_fromtimestamp
    = Some (Figure axes)
    /\ datetime2num earliest - 6 / 24 < datetime2num (at_time 739001 10 0)
    /\ datetime2num (at_time 739001 10 0) < datetime2num latest + 1.
Proof.
  destruct (dashboard_for_spec (fun _ _ => Some two_entries) utc_fromtimestamp
              LOCATIONS) as [_ Hsome].
  destruct Hsome as (axes & Hg & _).
  - exists ("Farley", (42.5949, -72.3678)). split; [left; reflexivity|].
    vm_compute. discriminate.
  - destruct (time_axis_encloses_samples _ _ axes utc_clock_valid Hg)
      as (earliest & latest & Hin & _).
    exists axes, earliest, latest. split; [exact Hg|].
    apply (Hin ("Farley", (42.5949, -72.3678))); left; reflexivity.
Defined.
